(** * SoftTissueSimulation: the synchronisation layer between the MRML scene
      and the SOFA solver graph

    A shallow embedding of [SoftTissueSimulation/SoftTissueSimulation.py]:
    the parameter node with its field mappings, the geometry helpers of the
    logic class and the session controller that drives the mappings.

    Coordinates are IEEE binary64 numbers, as in Python, numpy and VTK; they
    are Rocq's primitive floats, so every definition below runs. *)

From Stdlib Require Import ZArith List Bool Lia String Permutation.
From Stdlib Require Import Floats.
Import ListNotations.

Set Warnings "-inexact-float".

Local Open Scope float_scope.

(** ** Errors and fallible computations *)

(** What a call can raise: the first six come from the Python code and the
    libraries it calls, the last four are the error taxonomy of the session
    layer. *)
Inductive Error : Type :=
  | AttributeError
  | IndexError
  | OverflowError
  | MRMLNodeNotFoundException
  | MissingControlPoint
  | FloatingPointError
  | EmptyGeometry
  | AlreadyRunning
  | NotRunning
  | SessionBusy.

Inductive Exc (A : Type) : Type :=
  | Ok (a : A)
  | Raise (e : Error).

Arguments Ok {A} a.
Arguments Raise {A} e.

Definition bind {A B : Type} (c : Exc A) (k : A -> Exc B) : Exc B :=
  match c with
  | Ok a => k a
  | Raise e => Raise e
  end.

Notation "x <- c ;; k" := (bind c (fun x => k))
  (at level 61, c at next level, right associativity).

Definition raises {A : Type} (c : Exc A) : bool :=
  match c with
  | Ok _ => false
  | Raise _ => true
  end.

(** ** Vectors and numpy's array arithmetic *)

Record Vec3 : Type := mkVec3 { vx : float; vy : float; vz : float }.

Definition vzero : Vec3 := mkVec3 0 0 0.

Definition finite3 (p : Vec3) : bool :=
  is_finite (vx p) && is_finite (vy p) && is_finite (vz p).

Definition is_zero3 (p : Vec3) : bool :=
  is_zero (vx p) && is_zero (vy p) && is_zero (vz p).

Definition to_list (p : Vec3) : list float := [vx p; vy p; vz p].

Definition array_sub (a b : Vec3) : Vec3 :=
  mkVec3 (vx a - vx b) (vy a - vy b) (vz a - vz b).

(** [array * scalar] *)
Definition array_mul (a : Vec3) (k : float) : Vec3 :=
  mkVec3 (vx a * k) (vy a * k) (vz a * k).

(** [array / scalar].  A zero divisor is a fault here (numpy signals it as a
    floating-point error), so that a caller that can reach it is seen to
    fail. *)
Definition array_div (a : Vec3) (k : float) : Exc Vec3 :=
  if k =? 0 then Raise FloatingPointError
  else Ok (mkVec3 (vx a / k) (vy a / k) (vz a / k)).

(** [np.linalg.norm] of a 3-vector: the square root of the sum of squares,
    summed from left to right. *)
Definition linalg_norm (a : Vec3) : float :=
  sqrt (vx a * vx a + vy a * vy a + vz a * vz a).

(** The double nearest to an integer, ties to even; an infinity when the
    integer is beyond the range of the doubles. *)
Definition nearest_double (n : Z) : float :=
  SF2Prim (binary_normalize prec emax n 0 false).

(** Python's promotion of an [int] to a double in [array * int].  An [int]
    that rounds beyond the range of the doubles is refused: the product raises
    [OverflowError]. *)
Definition float_of_int (n : Z) : Exc float :=
  let k := nearest_double n in
  if is_finite k then Ok k else Raise OverflowError.

(** Python's [l * n] on lists. *)
Fixpoint list_mul {A : Type} (l : list A) (n : nat) : list A :=
  match n with
  | O => []
  | S n' => l ++ list_mul l n'
  end.

(** ** Entities of the MRML scene *)

(** A VTK mesh: its points, the number of cells it announces and its cells
    in VTK's flat layout [n0, id, ..., id, n1, id, ...] as [cells.GetData()]
    returns them.  A mesh that has no points object is not told apart from
    one whose points object is empty. *)
Record Mesh : Type := mkMesh {
  meshPoints : list Vec3;
  numberOfCells : nat;
  cellData : list nat
}.

(** [vtkMRMLModelNode]: a model holds an unstructured grid, a surface, or
    neither. *)
Record ModelNode : Type := mkModelNode {
  unstructuredGrid : option Mesh;
  polyData : option Mesh;
  modelMTime : nat
}.

Definition GetUnstructuredGrid (m : ModelNode) : option Mesh := unstructuredGrid m.
Definition GetPolyData (m : ModelNode) : option Mesh := polyData m.

(** [vtkMRMLMarkupsROINode]: centre and half-extents. *)
Record ROINode : Type := mkROINode {
  roiCenter : Vec3;
  roiRadius : Vec3
}.

Definition SetXYZ (r : ROINode) (c : Vec3) : ROINode :=
  mkROINode c (roiRadius r).

Definition SetRadiusXYZ (r : ROINode) (rx ry rz : float) : ROINode :=
  mkROINode (roiCenter r) (mkVec3 rx ry rz).

(** [vtkMRMLMarkupsLineNode] and [vtkMRMLMarkupsFiducialNode]: named lists of
    control points. *)
Record MarkupsNode : Type := mkMarkupsNode {
  markupsName : string;
  controlPoints : list Vec3
}.

Definition AddControlPointWorld (n : MarkupsNode) (p : Vec3) : MarkupsNode :=
  mkMarkupsNode (markupsName n) (controlPoints n ++ [p]).

Definition SetName (n : MarkupsNode) (s : string) : MarkupsNode :=
  mkMarkupsNode s (controlPoints n).

(** [GetNthControlPointPosition]; asking for a control point the markup does
    not have fails. *)
Definition GetNthControlPointPosition (n : MarkupsNode) (i : nat) : Exc Vec3 :=
  match nth_error (controlPoints n) i with
  | Some p => Ok p
  | None => Raise MissingControlPoint
  end.

(** ** The SOFA graph built by [CreateScene] *)

(** The fields of the graph that the layer writes. *)
Inductive Target : Type :=
  | RootGravity
  | ContainerTetrahedra
  | ContainerPosition
  | BoxROIBox
  | MouseInteractorPosition.

Definition Target_eqb (a b : Target) : bool :=
  match a, b with
  | RootGravity, RootGravity
  | ContainerTetrahedra, ContainerTetrahedra
  | ContainerPosition, ContainerPosition
  | BoxROIBox, BoxROIBox
  | MouseInteractorPosition, MouseInteractorPosition => true
  | _, _ => false
  end.

(** The graph, addressed by the node names of the mappings: [""] is the root
    ([gravity]), ["FEM"] holds [Container] ([tetrahedra], [position]) and
    [Collision.dofs] ([dofsPosition]), ["FEM.FixedROI.BoxROI"] the [box],
    ["AttachPoint.mouseInteractor"] the attachment target ([mousePosition]).
    [journal] lists the fields written, latest first. *)
Record SofaNode : Type := mkSofaNode {
  gravity : Vec3;
  tetrahedra : option (list (list nat));
  position : option (list Vec3);
  box : list (list float);
  mousePosition : list (list float);
  dofsPosition : list Vec3;
  journal : list Target
}.

Definition CreateScene : SofaNode :=
  {| gravity := mkVec3 0 0 0;
     tetrahedra := None;
     position := None;
     box := [[0; 0; 0; 0; 0; 0]];
     mousePosition := [];
     dofsPosition := [];
     journal := [] |}.

Definition set_gravity (n : SofaNode) (g : Vec3) : SofaNode :=
  {| gravity := g; tetrahedra := tetrahedra n; position := position n;
     box := box n; mousePosition := mousePosition n;
     dofsPosition := dofsPosition n; journal := RootGravity :: journal n |}.

Definition set_tetrahedra (n : SofaNode) (t : list (list nat)) : SofaNode :=
  {| gravity := gravity n; tetrahedra := Some t; position := position n;
     box := box n; mousePosition := mousePosition n;
     dofsPosition := dofsPosition n;
     journal := ContainerTetrahedra :: journal n |}.

Definition set_position (n : SofaNode) (p : list Vec3) : SofaNode :=
  {| gravity := gravity n; tetrahedra := tetrahedra n; position := Some p;
     box := box n; mousePosition := mousePosition n;
     dofsPosition := dofsPosition n;
     journal := ContainerPosition :: journal n |}.

Definition set_box (n : SofaNode) (b : list (list float)) : SofaNode :=
  {| gravity := gravity n; tetrahedra := tetrahedra n; position := position n;
     box := b; mousePosition := mousePosition n;
     dofsPosition := dofsPosition n; journal := BoxROIBox :: journal n |}.

Definition set_mousePosition (n : SofaNode) (p : list (list float)) : SofaNode :=
  {| gravity := gravity n; tetrahedra := tetrahedra n; position := position n;
     box := box n; mousePosition := p;
     dofsPosition := dofsPosition n;
     journal := MouseInteractorPosition :: journal n |}.

(** How many times a field was written. *)
Definition writesTo (t : Target) (n : SofaNode) : nat :=
  List.length (filter (Target_eqb t) (journal n)).

(** ** The parameter node *)

(** [SoftTissueSimulationParameterNode]: the four mapped entities, each of
    them possibly unset, the gravity strength, the three session fields that
    [resetParameterNode] writes, and the modification stamp that [Modified()]
    moves. *)
Record ParameterNode : Type := mkParameterNode {
  modelNode : option ModelNode;
  movingPointNode : option MarkupsNode;
  boundaryROI : option ROINode;
  gravityVector : option MarkupsNode;
  gravityMagnitude : Z;
  dt : float;
  currentStep : Z;
  totalSteps : Z;
  mtime : nat
}.

(** The class defaults: nothing bound, [gravityMagnitude: int = 1]. *)
Definition defaultParameterNode : ParameterNode :=
  {| modelNode := None; movingPointNode := None; boundaryROI := None;
     gravityVector := None; gravityMagnitude := 1; dt := 0.01;
     currentStep := 0; totalSteps := (-1); mtime := 0 |}.

(** Modelled from the spec: [arrayFromMarkupsROIPoints] of the SlicerSofa
    package, which is not in the sources.  The box is
    [minX, minY, minZ, maxX, maxY, maxZ], from the marker's centre and
    half-extents. *)
Definition arrayFromMarkupsROIPoints (roi : ROINode) : list float :=
  let c := roiCenter roi in
  let r := roiRadius roi in
  [vx c - vx r; vy c - vy r; vz c - vz r;
   vx c + vx r; vy c + vy r; vz c + vz r].

(** Modelled from the spec: [arrayVectorFromMarkupsLinePoints] of the
    SlicerSofa package, which is not in the sources.  The vector is
    [endpoint1 - endpoint0]. *)
Definition arrayVectorFromMarkupsLinePoints (line : MarkupsNode) : Exc Vec3 :=
  p0 <- GetNthControlPointPosition line 0 ;;
  p1 <- GetNthControlPointPosition line 1 ;;
  Ok (array_sub p1 p0).

(** *** Transforms to the engine *)

Definition markupsROIToSofaROI (self : ParameterNode) (sofaNode : SofaNode)
  : Exc SofaNode :=
  match boundaryROI self with
  | None => Ok sofaNode
  | Some roi => Ok (set_box sofaNode [arrayFromMarkupsROIPoints roi])
  end.

Definition markupsLineToGravityVector (self : ParameterNode) (sofaNode : SofaNode)
  : Exc SofaNode :=
  match gravityVector self with
  | None => Ok sofaNode
  | Some line =>
      gravityVector <- arrayVectorFromMarkupsLinePoints line ;;
      let magnitude := linalg_norm gravityVector in
      normalizedGravityVector <-
        (if negb (magnitude =? 0) then array_div gravityVector magnitude
         else Ok gravityVector) ;;
      scale <- float_of_int (gravityMagnitude self) ;;
      Ok (set_gravity sofaNode (array_mul normalizedGravityVector scale))
  end.

(** The loop over the cells of [modelNodetoSofaNode]: [fuel] cells are left
    to read from index [idx] of the flat array. *)
Fixpoint parseCells (cellArray : list nat) (fuel idx : nat)
  (cellConnectivity : list (list nat)) : Exc (list (list nat)) :=
  match fuel with
  | O => Ok cellConnectivity
  | S fuel' =>
      match nth_error cellArray idx with
      | None => Raise IndexError
      | Some numPoints =>
          parseCells cellArray fuel' (idx + (numPoints + 1))
            (cellConnectivity ++ [firstn numPoints (skipn (idx + 1) cellArray)])
      end
  end.

(** The body of [modelNodetoSofaNode]; its [RunOnce] decorator is
    [RunOnce] below. *)
Definition modelNodetoSofaNode (self : ParameterNode) (sofaNode : SofaNode)
  : Exc SofaNode :=
  match modelNode self with
  | None => Ok sofaNode
  | Some model =>
      match GetUnstructuredGrid model with
      | None => Raise AttributeError
      | Some grid =>
          let pointCoords := meshPoints grid in
          cellConnectivity <-
            parseCells (cellData grid) (numberOfCells grid) 0 [] ;;
          Ok (set_position (set_tetrahedra sofaNode cellConnectivity) pointCoords)
      end
  end.

Definition markupsFiducialNodeToSofaPoint (self : ParameterNode) (sofaNode : SofaNode)
  : Exc SofaNode :=
  match movingPointNode self with
  | None => Ok sofaNode
  | Some fiducial =>
      p <- GetNthControlPointPosition fiducial 0 ;;
      Ok (set_mousePosition sofaNode [list_mul (to_list p) 3])
  end.

(** *** Transform from the engine *)

(** Rounding of a double to single precision, the [array_type=VTK_FLOAT] of
    [numpy_to_vtk]. *)
Definition to_float32 (x : float) : float :=
  match Prim2SF x with
  | S754_finite s m e => SF2Prim (binary_round 24 128 s m e)
  | _ => x
  end.

Definition numpy_to_vtk (a : list Vec3) : list Vec3 :=
  map (fun p => mkVec3 (to_float32 (vx p)) (to_float32 (vy p)) (to_float32 (vz p))) a.

Definition SetPoints (g : Mesh) (pts : list Vec3) : Mesh :=
  mkMesh pts (numberOfCells g) (cellData g).

Definition set_modelNode (self : ParameterNode) (m : option ModelNode) : ParameterNode :=
  {| modelNode := m; movingPointNode := movingPointNode self;
     boundaryROI := boundaryROI self; gravityVector := gravityVector self;
     gravityMagnitude := gravityMagnitude self; dt := dt self;
     currentStep := currentStep self; totalSteps := totalSteps self;
     mtime := mtime self |}.

(** [sofaNodeToModelNode]: there is no test of [self.modelNode] here, the
    attribute access on [None] raises. *)
Definition sofaNodeToModelNode (self : ParameterNode) (sofaNode : SofaNode)
  : Exc ParameterNode :=
  let convertedPoints := numpy_to_vtk (dofsPosition sofaNode) in
  let points := convertedPoints in
  match modelNode self with
  | None => Raise AttributeError
  | Some model =>
      match GetUnstructuredGrid model with
      | None => Raise AttributeError
      | Some grid =>
          Ok (set_modelNode self
                (Some {| unstructuredGrid := Some (SetPoints grid points);
                         polyData := polyData model;
                         modelMTime := S (modelMTime model) |}))
      end
  end.

(** ** The logic object *)

(** What the recorder keeps of a step: the entities of the recordable
    mappings. *)
Record Snapshot : Type := mkSnapshot {
  snapModel : option ModelNode;
  snapMovingPoint : option MarkupsNode;
  snapROI : option ROINode;
  snapGravity : option MarkupsNode
}.

(** [SoftTissueSimulationLogic]: the parameter node, the graph built by
    [CreateScene] in [__init__] and the running flag.  The last three fields
    are the state of the [SlicerSofaLogic] base class, which is not in the
    sources, as the specification describes the session: whether the graph
    handle is held, the latch of the run-once mapping and the recorded
    sequences. *)
Record Logic : Type := mkLogic {
  parameterNode : ParameterNode;
  rootNode : SofaNode;
  simulationRunning : bool;
  engineGraphHandle : bool;
  onceGuard : bool;
  sequences : list (Z * Snapshot)
}.

Definition newLogic : Logic :=
  {| parameterNode := defaultParameterNode; rootNode := CreateScene;
     simulationRunning := false; engineGraphHandle := false;
     onceGuard := false; sequences := [] |}.

Definition set_parameterNode (l : Logic) (p : ParameterNode) : Logic :=
  {| parameterNode := p; rootNode := rootNode l;
     simulationRunning := simulationRunning l;
     engineGraphHandle := engineGraphHandle l; onceGuard := onceGuard l;
     sequences := sequences l |}.

Definition set_rootNode (l : Logic) (n : SofaNode) : Logic :=
  {| parameterNode := parameterNode l; rootNode := n;
     simulationRunning := simulationRunning l;
     engineGraphHandle := engineGraphHandle l; onceGuard := onceGuard l;
     sequences := sequences l |}.

Definition set_simulationRunning (l : Logic) (b : bool) : Logic :=
  {| parameterNode := parameterNode l; rootNode := rootNode l;
     simulationRunning := b;
     engineGraphHandle := engineGraphHandle l; onceGuard := onceGuard l;
     sequences := sequences l |}.

Definition set_engineGraphHandle (l : Logic) (b : bool) : Logic :=
  {| parameterNode := parameterNode l; rootNode := rootNode l;
     simulationRunning := simulationRunning l;
     engineGraphHandle := b; onceGuard := onceGuard l;
     sequences := sequences l |}.

Definition set_onceGuard (l : Logic) (b : bool) : Logic :=
  {| parameterNode := parameterNode l; rootNode := rootNode l;
     simulationRunning := simulationRunning l;
     engineGraphHandle := engineGraphHandle l; onceGuard := b;
     sequences := sequences l |}.

Definition set_sequences (l : Logic) (s : list (Z * Snapshot)) : Logic :=
  {| parameterNode := parameterNode l; rootNode := rootNode l;
     simulationRunning := simulationRunning l;
     engineGraphHandle := engineGraphHandle l; onceGuard := onceGuard l;
     sequences := s |}.

Definition set_currentStep (self : ParameterNode) (n : Z) : ParameterNode :=
  {| modelNode := modelNode self; movingPointNode := movingPointNode self;
     boundaryROI := boundaryROI self; gravityVector := gravityVector self;
     gravityMagnitude := gravityMagnitude self; dt := dt self;
     currentStep := n; totalSteps := totalSteps self;
     mtime := mtime self |}.

(** [parameterNode.Modified()]: the node's modification stamp moves and its
    observers are told; nothing else changes. *)
Definition Modified (l : Logic) : Logic :=
  let p := parameterNode l in
  set_parameterNode l
    {| modelNode := modelNode p; movingPointNode := movingPointNode p;
       boundaryROI := boundaryROI p; gravityVector := gravityVector p;
       gravityMagnitude := gravityMagnitude p; dt := dt p;
       currentStep := currentStep p; totalSteps := totalSteps p;
       mtime := S (mtime p) |}.

(** The state of the session: phase, step index, step budget, time
    increment, graph handle. *)
Definition sessionState (l : Logic) : bool * Z * Z * float * bool :=
  (simulationRunning l, currentStep (parameterNode l),
   totalSteps (parameterNode l), dt (parameterNode l), engineGraphHandle l).

(** A call on the logic object: the state it leaves and the error it raised,
    if any.  The state survives an exception, as the object does. *)
Definition Cmd : Type := Logic -> Logic * option Error.

Definition andThen (a b : Cmd) : Cmd :=
  fun l =>
    match a l with
    | (l1, None) => b l1
    | (l1, Some e) => (l1, Some e)
    end.

Notation "a >> b" := (andThen a b) (at level 62, right associativity).

Definition pass (f : Logic -> Logic) : Cmd := fun l => (f l, None).

(** [n] calls of [c] in a row, up to the first that fails. *)
Fixpoint times (n : nat) (c : Cmd) : Cmd :=
  match n with
  | O => pass (fun l => l)
  | S n' => c >> times n' c
  end.

(** A transform to the engine, run on the graph of the logic object. *)
Definition toEngine (transform : ParameterNode -> SofaNode -> Exc SofaNode) : Cmd :=
  fun l =>
    match transform (parameterNode l) (rootNode l) with
    | Ok n => (set_rootNode l n, None)
    | Raise e => (l, Some e)
    end.

(** A transform from the engine, which updates the entities. *)
Definition fromEngine (transform : ParameterNode -> SofaNode -> Exc ParameterNode) : Cmd :=
  fun l =>
    match transform (parameterNode l) (rootNode l) with
    | Ok p => (set_parameterNode l p, None)
    | Raise e => (l, Some e)
    end.

(** ** The session controller of the base class *)

Section Session.

(** The solver is an external collaborator: [animate n dt] gives the
    positions of the degrees of freedom after the graph [n] has advanced by
    [dt]. *)
Variable animate : SofaNode -> float -> list Vec3.

Definition set_dofsPosition (n : SofaNode) (p : list Vec3) : SofaNode :=
  {| gravity := gravity n; tetrahedra := tetrahedra n; position := position n;
     box := box n; mousePosition := mousePosition n;
     dofsPosition := p; journal := journal n |}.

Definition isBound {A : Type} (entity : option A) : bool :=
  match entity with
  | Some _ => true
  | None => false
  end.

(** Modelled from the spec: the [RunOnce] decorator of the SlicerSofa package,
    which is not in the sources.  The transform runs only if it has not yet
    succeeded in the session; an attempt with the entity unset does not
    consume the guard. *)
Definition RunOnce (bound : ParameterNode -> bool)
  (transform : ParameterNode -> SofaNode -> Exc SofaNode) : Cmd :=
  fun l =>
    if onceGuard l then (l, None)
    else
      match transform (parameterNode l) (rootNode l) with
      | Ok n => (set_onceGuard (set_rootNode l n) (bound (parameterNode l)), None)
      | Raise e => (l, Some e)
      end.

(** Modelled from the spec: [runToEngine] of the synchronizer, which is not in
    the sources.  The mappings run in the order of their declaration in the
    parameter node; the first error stops the run. *)
Definition runToEngine : Cmd :=
  RunOnce (fun p => isBound (modelNode p)) modelNodetoSofaNode
  >> toEngine markupsFiducialNodeToSofaPoint
  >> toEngine markupsROIToSofaROI
  >> toEngine markupsLineToGravityVector.

(** Modelled from the spec: [runFromEngine] of the synchronizer, which is not
    in the sources.  Only the model node has a mapping from the engine. *)
Definition runFromEngine : Cmd :=
  fromEngine sofaNodeToModelNode.

(** Modelled from the spec: the engine advances by the time increment. *)
Definition advance : Cmd :=
  pass (fun l =>
    set_rootNode l
      (set_dofsPosition (rootNode l)
         (animate (rootNode l) (dt (parameterNode l))))).

(** Modelled from the spec: the recorder appends the current values of the
    recordable mappings at the current step index. *)
Definition recordStep : Cmd :=
  pass (fun l =>
    let p := parameterNode l in
    set_sequences l
      (sequences l ++
       [(currentStep p,
         mkSnapshot (modelNode p) (movingPointNode p) (boundaryROI p)
           (gravityVector p))])).

(** Modelled from the spec: a failed call leaves the phase and the step index
    of the session as they were before it. *)
Definition restoreSession (before reached : Logic) : Logic :=
  set_simulationRunning
    (set_parameterNode reached
       (set_currentStep (parameterNode reached)
          (currentStep (parameterNode before))))
    (simulationRunning before).

(** Modelled from the spec: [setupScene] of the base class, which is not in
    the sources, attaches the graph handle. *)
Definition setupScene : Cmd :=
  pass (fun l => set_engineGraphHandle l true).

(** Modelled from the spec: [start()] of the session, the
    [SlicerSofaLogic.startSimulation] that is not in the sources.  It fails
    with [AlreadyRunning] while running; otherwise it re-arms the run-once
    guard, runs the mappings to the engine once, and the session is running
    at step 0. *)
Definition SlicerSofaLogic_startSimulation : Cmd :=
  fun l =>
    if simulationRunning l then (l, Some AlreadyRunning)
    else
      match runToEngine (set_onceGuard l false) with
      | (l1, None) =>
          (set_simulationRunning
             (set_parameterNode l1 (set_currentStep (parameterNode l1) 0))
             true, None)
      | (l1, Some e) => (restoreSession l l1, Some e)
      end.

(** Modelled from the spec: [stop()] of the session, the
    [SlicerSofaLogic.stopSimulation] that is not in the sources.  While idle
    it does nothing; otherwise the session becomes idle and the graph handle
    is released. *)
Definition SlicerSofaLogic_stopSimulation : Cmd :=
  pass (fun l =>
    if simulationRunning l
    then set_engineGraphHandle (set_simulationRunning l false) false
    else l).

(** The model node is bound to a grid whose cell array can be read: the
    topology upload can run. *)
Definition uploadable (p : ParameterNode) : bool :=
  match modelNode p with
  | Some model =>
      match GetUnstructuredGrid model with
      | Some grid =>
          negb (raises (parseCells (cellData grid) (numberOfCells grid) 0 []))
      | None => false
      end
  | None => false
  end.

(** The session is configured: the mesh can be uploaded, the markers that
    are set have the control points their mappings read, and the magnitude
    that scales a line marker is in the range of the doubles. *)
Definition configured (p : ParameterNode) : bool :=
  uploadable p
  && match movingPointNode p with
     | Some fiducial => negb (raises (GetNthControlPointPosition fiducial 0))
     | None => true
     end
  && match gravityVector p with
     | Some line =>
         negb (raises (arrayVectorFromMarkupsLinePoints line))
         && negb (raises (float_of_int (gravityMagnitude p)))
     | None => true
     end.

(** The number of topology uploads the graph has received. *)
Definition uploads (l : Logic) : nat :=
  writesTo ContainerTetrahedra (rootNode l).

(** Modelled from the spec: the step budget is reached when
    [stepBudget >= 0] and the step index has come to it. *)
Definition budgetReached (p : ParameterNode) : bool :=
  (0 <=? totalSteps p)%Z && (totalSteps p <=? currentStep p)%Z.

(** Modelled from the spec: [step()] of the session, the
    [SlicerSofaLogic.simulationStep] that is not in the sources.  It fails
    with [NotRunning] while idle; otherwise it runs the mappings to the
    engine, advances the engine, runs the mappings from the engine, records,
    increments the step index, and stops the session when the budget is
    reached. *)
Definition simulationStep : Cmd :=
  fun l =>
    if negb (simulationRunning l) then (l, Some NotRunning)
    else
      match (runToEngine >> advance >> runFromEngine >> recordStep) l with
      | (l1, Some e) => (restoreSession l l1, Some e)
      | (l1, None) =>
          let p := parameterNode l1 in
          let l2 := set_parameterNode l1 (set_currentStep p (currentStep p + 1)%Z) in
          if budgetReached (parameterNode l2)
          then (set_simulationRunning l2 false, None)
          else (l2, None)
      end.

(** *** The methods of [SoftTissueSimulationLogic] on the session *)

Definition startSimulation : Cmd :=
  setupScene
  >> SlicerSofaLogic_startSimulation
  >> pass (fun self => set_simulationRunning self true)
  >> pass Modified.

Definition stopSimulation : Cmd :=
  SlicerSofaLogic_stopSimulation
  >> pass (fun self => set_simulationRunning self false)
  >> pass Modified.

(** What the application does to a session between its start and its stop:
    it calls [simulationStep], or it edits the parameter node. *)
Inductive Call : Type :=
  | CallStep
  | Edit (f : ParameterNode -> ParameterNode).

Definition doCall (c : Call) (l : Logic) : Logic :=
  match c with
  | CallStep => fst (simulationStep l)
  | Edit f => set_parameterNode l (f (parameterNode l))
  end.

Definition doCalls (cs : list Call) (l : Logic) : Logic :=
  fold_left (fun s c => doCall c s) cs l.

(** [n] calls of [simulationStep] in a row, up to the first that fails. *)
Definition steps (n : nat) : Cmd := times n simulationStep.

End Session.

(** ** The parameter and geometry methods of [SoftTissueSimulationLogic] *)

Definition resetParameterNode (self : Logic) : Logic :=
  let p := parameterNode self in
  set_parameterNode self
    {| modelNode := None;
       movingPointNode := None;
       boundaryROI := None;
       gravityVector := None;
       gravityMagnitude := gravityMagnitude p;
       dt := 0.01;
       currentStep := 0;
       totalSteps := (-1);
       mtime := mtime p |}.

(** [mesh.GetBounds()]: (xmin, xmax, ymin, ymax, zmin, zmax). *)
Record Bounds : Type := mkBounds {
  b0 : float; b1 : float; b2 : float; b3 : float; b4 : float; b5 : float
}.

Definition fmin (a b : float) : float := if b <? a then b else a.
Definition fmax (a b : float) : float := if a <? b then b else a.

Definition extendBounds (b : Bounds) (p : Vec3) : Bounds :=
  mkBounds (fmin (b0 b) (vx p)) (fmax (b1 b) (vx p))
           (fmin (b2 b) (vy p)) (fmax (b3 b) (vy p))
           (fmin (b4 b) (vz p)) (fmax (b5 b) (vz p)).

(** [vtkDataSet::GetBounds] of the VTK library: the extent of the points on
    each axis; without points, the uninitialised box (1, -1, 1, -1, 1, -1)
    that a newly made data set reports (one whose points object is there and
    empty reports another inverted box).  It does not fail. *)
Definition GetBounds (mesh : Mesh) : Bounds :=
  match meshPoints mesh with
  | [] => mkBounds 1 (-1) 1 (-1) 1 (-1)
  | p :: rest =>
      fold_left extendBounds rest
        (mkBounds (vx p) (vx p) (vy p) (vy p) (vz p) (vz p))
  end.

(** The mesh of the model node: its unstructured grid, else its surface. *)
Definition meshOfModel (m : option ModelNode) : option Mesh :=
  match m with
  | None => None
  | Some model =>
      match GetUnstructuredGrid model with
      | Some grid => Some grid
      | None => GetPolyData model
      end
  end.

Definition set_boundaryROI (self : ParameterNode) (r : option ROINode) : ParameterNode :=
  {| modelNode := modelNode self; movingPointNode := movingPointNode self;
     boundaryROI := r; gravityVector := gravityVector self;
     gravityMagnitude := gravityMagnitude self; dt := dt self;
     currentStep := currentStep self; totalSteps := totalSteps self;
     mtime := mtime self |}.

Definition set_movingPointNode (self : ParameterNode) (f : option MarkupsNode) : ParameterNode :=
  {| modelNode := modelNode self; movingPointNode := f;
     boundaryROI := boundaryROI self; gravityVector := gravityVector self;
     gravityMagnitude := gravityMagnitude self; dt := dt self;
     currentStep := currentStep self; totalSteps := totalSteps self;
     mtime := mtime self |}.

(** [addBoundaryROI]; [roiNode] is the node that the scene has just created
    ([AddNewNodeByClass]). *)
Definition addBoundaryROI (self : Logic) (roiNode : ROINode) : Logic :=
  let mesh := meshOfModel (modelNode (parameterNode self)) in
  let roiNode :=
    match mesh with
    | Some mesh =>
        let bounds := GetBounds mesh in
        let center :=
          mkVec3 ((b0 bounds + b1 bounds) / 2)
                 ((b2 bounds + b3 bounds) / 2)
                 ((b4 bounds + b5 bounds) / 2) in
        let size :=
          mkVec3 (abs (b1 bounds - b0 bounds) / 2)
                 (abs (b3 bounds - b2 bounds) / 2)
                 (abs (b5 bounds - b4 bounds) / 2) in
        SetRadiusXYZ (SetXYZ roiNode center) (vx size) (vy size) (vz size)
    | None => roiNode
    end in
  set_parameterNode self (set_boundaryROI (parameterNode self) (Some roiNode)).

(** *** The nearest point *)

(** The squared distance between two points. *)
Definition distance2 (p x : Vec3) : float :=
  let d := array_sub p x in
  vx d * vx d + vy d * vy d + vz d * vz d.

(** [vtkPointLocator] of the VTK library is not in the sources.  The locator
    that [addFiducialToClosestPoint] builds on the mesh and asks for the
    point nearest to a position ([FindClosestPoint]) is taken as it comes: a
    function of the data set and the position that gives a point id, or
    fails. *)
Definition Locator : Type := Mesh -> Vec3 -> Exc nat.

Definition GetPoint (modelData : Mesh) (i : nat) : Exc Vec3 :=
  match nth_error (meshPoints modelData) i with
  | Some p => Ok p
  | None => Raise IndexError
  end.

Record CameraNode : Type := mkCameraNode { cameraPosition : Vec3 }.

Section PointLocator.

Variable FindClosestPoint : Locator.

(** The lookup of [addFiducialToClosestPoint] (the locator and [GetPoint]):
    the id that the locator gives and the coordinates of that point. *)
Definition closestPointOf (modelData : Mesh) (x : Vec3) : Exc (nat * Vec3) :=
  closestPointId <- FindClosestPoint modelData x ;;
  closestPoint <- GetPoint modelData closestPointId ;;
  Ok (closestPointId, closestPoint).

(** [addFiducialToClosestPoint]; [fiducialNode] is the node that the scene
    has just created.  The mesh is the one of the parameter node's model,
    whatever [modelNode] is passed. *)
Definition addFiducialToClosestPoint (self : Logic) (modelNode0 : ModelNode)
  (cameraNode : CameraNode) (fiducialNode : MarkupsNode) : Exc MarkupsNode :=
  let camPosition := cameraPosition cameraNode in
  match modelNode (parameterNode self) with
  | None => Raise AttributeError
  | Some model =>
      match meshOfModel (Some model) with
      | None => Raise AttributeError
      | Some modelData =>
          found <- closestPointOf modelData camPosition ;;
          let closestPoint := snd found in
          Ok (SetName (AddControlPointWorld fiducialNode closestPoint)
                "Closest Fiducial")
      end
  end.

(** [addMovingPoint]; [getNode] is the outcome of
    [slicer.util.getNode('Camera')], which raises
    [MRMLNodeNotFoundException] when the scene has no node of that name.  The
    method tests what the call returned against [None], as it tests the
    model node. *)
Definition addMovingPoint (self : Logic) (getNode : Exc (option CameraNode))
  (fiducialNode : MarkupsNode) : Exc Logic :=
  cameraNode <- getNode ;;
  match modelNode (parameterNode self), cameraNode with
  | Some model, Some camera =>
      fiducial <- addFiducialToClosestPoint self model camera fiducialNode ;;
      Ok (set_parameterNode self
            (set_movingPointNode (parameterNode self) (Some fiducial)))
  | _, _ => Ok self
  end.

End PointLocator.

(** *** The other scene callbacks *)

Definition set_gravityVector (self : ParameterNode) (g : option MarkupsNode) : ParameterNode :=
  {| modelNode := modelNode self; movingPointNode := movingPointNode self;
     boundaryROI := boundaryROI self; gravityVector := g;
     gravityMagnitude := gravityMagnitude self; dt := dt self;
     currentStep := currentStep self; totalSteps := totalSteps self;
     mtime := mtime self |}.

(** [onModelNodeModified]: the points of [caller]'s surface replace those of
    the model's mesh, the unstructured grid if there is one, else the
    surface.  There is no test of the model node, nor of [caller]'s
    surface where it is read. *)
Definition onModelNodeModified (self : Logic) (caller : ModelNode) : Exc Logic :=
  match modelNode (parameterNode self) with
  | None => Raise AttributeError
  | Some model =>
      match GetUnstructuredGrid model with
      | Some grid =>
          match GetPolyData caller with
          | None => Raise AttributeError
          | Some surface =>
              Ok (set_parameterNode self
                    (set_modelNode (parameterNode self)
                       (Some {| unstructuredGrid :=
                                  Some (SetPoints grid (meshPoints surface));
                                polyData := polyData model;
                                modelMTime := modelMTime model |})))
          end
      | None =>
          match GetPolyData model with
          | Some poly =>
              match GetPolyData caller with
              | None => Raise AttributeError
              | Some surface =>
                  Ok (set_parameterNode self
                        (set_modelNode (parameterNode self)
                           (Some {| unstructuredGrid := None;
                                    polyData :=
                                      Some (SetPoints poly (meshPoints surface));
                                    modelMTime := modelMTime model |})))
              end
          | None => Ok self
          end
      end
  end.

(** [addGravityVector]; [lineNode] is the node that the constructor
    returned, and [AddNode] is the scene's, which gives back the node it
    added, or nothing. *)
Definition addGravityVector (self : Logic) (lineNode : MarkupsNode)
  (AddNode : MarkupsNode -> option MarkupsNode) : Logic :=
  let gravityVector := SetName lineNode "Gravity" in
  let mesh := meshOfModel (modelNode (parameterNode self)) in
  let gravityVector :=
    match mesh with
    | Some mesh =>
        let bounds := GetBounds mesh in
        let center :=
          mkVec3 ((b0 bounds + b1 bounds) / 2)
                 ((b2 bounds + b3 bounds) / 2)
                 ((b4 bounds + b5 bounds) / 2) in
        let startPoint := mkVec3 (vx center) (b2 bounds) (vz center) in
        let endPoint := mkVec3 (vx center) (b3 bounds) (vz center) in
        AddControlPointWorld (AddControlPointWorld gravityVector startPoint)
          endPoint
    | None => gravityVector
    end in
  let gravityVector := AddNode gravityVector in
  set_parameterNode self (set_gravityVector (parameterNode self) gravityVector).

(** ** Notions used in the proofs *)

(** The value of the conditional of [markupsLineToGravityVector]: the vector
    over its rounded norm, and the vector itself when that norm compares
    equal to zero. *)
Definition overNorm (v : Vec3) : Vec3 :=
  let magnitude := linalg_norm v in
  if magnitude =? 0 then v
  else mkVec3 (vx v / magnitude) (vy v / magnitude) (vz v / magnitude).


(** A scan of the points from index [i]: [best] is the nearest point so far,
    at squared distance [bestDist2]; only a strictly nearer point replaces
    it. *)
Fixpoint closestFrom (x : Vec3) (points : list Vec3) (i best : nat)
  (bestDist2 : float) : nat :=
  match points with
  | [] => best
  | p :: rest =>
      if distance2 p x <? bestDist2
      then closestFrom x rest (S i) i (distance2 p x)
      else closestFrom x rest (S i) best bestDist2
  end.

(** A locator that scans the points in the order of their ids; of
    equidistant points it gives the first. *)
Definition firstNearest : Locator :=
  fun modelData x =>
    match meshPoints modelData with
    | [] => Raise EmptyGeometry
    | p :: rest => Ok (closestFrom x rest 1 0 (distance2 p x))
    end.





(** The transforms of the markers leave the topology alone. *)
Definition keepsTopology (t : ParameterNode -> SofaNode -> Exc SofaNode) : Prop :=
  forall p n n', t p n = Ok n' ->
    writesTo ContainerTetrahedra n' = writesTo ContainerTetrahedra n.

(** The mappings of the markers, the tail of [runToEngine]. *)
Definition markerMappings : Cmd :=
  toEngine markupsFiducialNodeToSofaPoint
  >> toEngine markupsROIToSofaROI
  >> toEngine markupsLineToGravityVector.

(** A call that touches nothing of the session but the graph, and there
    nothing of the topology. *)
Definition graphOnly (c : Cmd) : Prop :=
  forall l,
    exists n, fst (c l) = set_rootNode l n /\
              writesTo ContainerTetrahedra n = uploads l.

(** A call that leaves the guard and the topology of the graph alone. *)
Definition keepsUploads (c : Cmd) : Prop :=
  forall l,
    onceGuard (fst (c l)) = onceGuard l /\ uploads (fst (c l)) = uploads l.

(** VTK's flat layout of a list of cells: each cell after its size. *)
Definition encodeCells (cells : list (list nat)) : list nat :=
  flat_map (fun c => List.length c :: c) cells.

(** The values held by the graph, without the journal. *)
Definition fieldsOf (n : SofaNode)
  : Vec3 * option (list (list nat)) * option (list Vec3) * list (list float)
    * list (list float) * list Vec3 :=
  (gravity n, tetrahedra n, position n, box n, mousePosition n, dofsPosition n).

(** Two outcomes agree: both fail, or both succeed with the same values in
    the graph. *)
Definition sameOutcome (a b : Exc SofaNode) : Prop :=
  match a, b with
  | Ok n, Ok m => fieldsOf n = fieldsOf m
  | Raise _, Raise _ => True
  | _, _ => False
  end.

(** The transforms [ts] run one after the other on a graph. *)
Fixpoint applyAll (ts : list (ParameterNode -> SofaNode -> Exc SofaNode))
  (self : ParameterNode) (n : SofaNode) : Exc SofaNode :=
  match ts with
  | [] => Ok n
  | t :: rest => n' <- t self n ;; applyAll rest self n'
  end.

(** The four transforms to the engine, in the order of their declaration. *)
Definition engineTransforms : list (ParameterNode -> SofaNode -> Exc SofaNode) :=
  [modelNodetoSofaNode; markupsFiducialNodeToSofaPoint; markupsROIToSofaROI;
   markupsLineToGravityVector].

(** What a transform to the engine writes, when it writes. *)
Inductive Write : Type :=
  | WNone
  | WTopology (cells : list (list nat)) (points : list Vec3)
  | WMouse (p : list (list float))
  | WBox (b : list (list float))
  | WGravity (g : Vec3).

Definition applyWrite (w : Write) (n : SofaNode) : SofaNode :=
  match w with
  | WNone => n
  | WTopology cells points => set_position (set_tetrahedra n cells) points
  | WMouse p => set_mousePosition n p
  | WBox b => set_box n b
  | WGravity g => set_gravity n g
  end.

(** The place of the transform that makes a write, in [engineTransforms]. *)
Definition slot (w : Write) : option nat :=
  match w with
  | WNone => None
  | WTopology _ _ => Some 0%nat
  | WMouse _ => Some 1%nat
  | WBox _ => Some 2%nat
  | WGravity _ => Some 3%nat
  end.

(** A transform decides what it writes from the parameter node alone. *)
Definition writesPlan (t : ParameterNode -> SofaNode -> Exc SofaNode)
  (self : ParameterNode) (r : Exc Write) : Prop :=
  forall n, t self n = (w <- r ;; Ok (applyWrite w n)).

(** A number that is not NaN and carries the sign [s]. *)
Definition signedSF (s : bool) (f : spec_float) : Prop :=
  match f with
  | S754_nan => False
  | S754_zero s' | S754_infinity s' | S754_finite s' _ _ => s' = s
  end.

Definition notNaN (f : spec_float) : Prop :=
  match f with S754_nan => False | _ => True end.

Definition finiteSF (f : spec_float) : Prop :=
  match f with S754_zero _ | S754_finite _ _ _ => True | _ => False end.

(** ** Scenarios *)

Definition gravityScenario : ParameterNode :=
  {| modelNode := None; movingPointNode := None; boundaryROI := None;
     gravityVector :=
       Some (mkMarkupsNode "Gravity" [mkVec3 0 (-1) 0; mkVec3 0 1 0]);
     gravityMagnitude := 10; dt := 0.01;
     currentStep := 0; totalSteps := (-1); mtime := 0 |}.

Definition coincidingScenario : ParameterNode :=
  {| modelNode := None; movingPointNode := None; boundaryROI := None;
     gravityVector :=
       Some (mkMarkupsNode "Gravity" [mkVec3 3 (-1) 2.5; mkVec3 3 (-1) 2.5]);
     gravityMagnitude := 10000; dt := 0.01;
     currentStep := 0; totalSteps := (-1); mtime := 0 |}.

(** A line marker from the origin to [p], with the magnitude [m]. *)
Definition lineScenario (p : Vec3) (m : Z) : ParameterNode :=
  {| modelNode := None; movingPointNode := None; boundaryROI := None;
     gravityVector := Some (mkMarkupsNode "Gravity" [mkVec3 0 0 0; p]);
     gravityMagnitude := m; dt := 0.01;
     currentStep := 0; totalSteps := (-1); mtime := 0 |}.

(** A line marker with both endpoints at [p], with the magnitude [m]. *)
Definition coincidingAt (p : Vec3) (m : Z) : ParameterNode :=
  {| modelNode := None; movingPointNode := None; boundaryROI := None;
     gravityVector := Some (mkMarkupsNode "Gravity" [p; p]);
     gravityMagnitude := m; dt := 0.01;
     currentStep := 0; totalSteps := (-1); mtime := 0 |}.

(** The line of [gravityScenario] with a magnitude beyond the doubles. *)
Definition hugeMagnitudeScenario : ParameterNode :=
  {| modelNode := None; movingPointNode := None; boundaryROI := None;
     gravityVector :=
       Some (mkMarkupsNode "Gravity" [mkVec3 0 (-1) 0; mkVec3 0 1 0]);
     gravityMagnitude := 2 ^ 1024; dt := 0.01;
     currentStep := 0; totalSteps := (-1); mtime := 0 |}.

(** A graph that holds a gravity and positions already. *)
Definition loadedScene : SofaNode :=
  {| gravity := mkVec3 1 2 3;
     tetrahedra := None;
     position := None;
     box := [[0; 0; 0; 0; 0; 0]];
     mousePosition := [[7; 7; 7; 7; 7; 7; 7; 7; 7]];
     dofsPosition := [];
     journal := [] |}.

Definition pointScenario : ParameterNode :=
  {| modelNode := None;
     movingPointNode :=
       Some (mkMarkupsNode "Closest Fiducial" [mkVec3 1.5 (-2) 0.25]);
     boundaryROI := None; gravityVector := None;
     gravityMagnitude := 0; dt := 0.01;
     currentStep := 0; totalSteps := 100; mtime := 0 |}.

Definition threePoints : Mesh :=
  mkMesh [mkVec3 0 0 0; mkVec3 1 0 0; mkVec3 2 0 0] 0 [].

Definition emptyMesh : Mesh := mkMesh [] 0 [].

Definition emptyMeshLogic : Logic :=
  set_parameterNode newLogic
    (set_modelNode defaultParameterNode
       (Some (mkModelNode (Some emptyMesh) None 0))).

Definition tetraMesh : Mesh :=
  mkMesh [mkVec3 0 0 0; mkVec3 1 0 0; mkVec3 0 1 0; mkVec3 0 0 1] 1 [4; 0; 1; 2; 3]%nat.

Definition tetraSession : Logic :=
  set_parameterNode newLogic
    {| modelNode := Some (mkModelNode (Some tetraMesh) None 0);
       movingPointNode := None;
       boundaryROI := Some (mkROINode (mkVec3 0 0 0) (mkVec3 1 1 0.1));
       gravityVector :=
         Some (mkMarkupsNode "Gravity" [mkVec3 0 (-1) 0; mkVec3 0 1 0]);
       gravityMagnitude := 10; dt := 0.01;
       currentStep := 0; totalSteps := 5; mtime := 0 |}.

(** A solver at rest: the degrees of freedom stay at the uploaded points. *)
Definition atRest (n : SofaNode) (dt : float) : list Vec3 :=
  match position n with
  | Some points => points
  | None => dofsPosition n
  end.

Definition tetraModel : ModelNode := mkModelNode (Some tetraMesh) None 0.

(** A model that is a surface only. *)
Definition surfaceModel : ModelNode := mkModelNode None (Some threePoints) 0.

Definition surfaceLogic : Logic :=
  set_parameterNode newLogic (set_modelNode defaultParameterNode (Some surfaceModel)).

Definition emptyFiducial : MarkupsNode := mkMarkupsNode "" [].

Definition cameraAtX : CameraNode := mkCameraNode (mkVec3 2 0 0).

(** * Properties *)

(** ** Binary64 facts used by the geometry *)

Section FloatFacts.

(** A finite double is a zero or a finite non-zero number. *)
Lemma is_finite_SF (x : float) :
  is_finite x = true ->
  (exists s, Prim2SF x = S754_zero s) \/
  (exists s m e, Prim2SF x = S754_finite s m e).
Proof.
  unfold is_finite, is_nan, is_infinity.
  rewrite !eqb_spec, abs_spec.
  destruct (Prim2SF x) as [s|s| |s m e] eqn:E.
  - intros _. left. now exists s.
  - destruct s; vm_compute; discriminate.
  - vm_compute; discriminate.
  - intros _. right. now exists s, m, e.
Qed.

Lemma SFsub_diag (s : bool) (m : positive) (e : Z) :
  SF64sub (S754_finite s m e) (S754_finite s m e) = S754_zero false.
Proof.
  unfold SF64sub, SFsub.
  rewrite Z.min_id. unfold shl_align. rewrite Z.sub_diag. cbn [fst].
  reflexivity.
Qed.

(** [x - x] is [+0] for every finite [x] (it is NaN for an infinity). *)
Lemma sub_diag_finite (x : float) : is_finite x = true -> x - x = 0.
Proof.
  intros H. apply Prim2SF_inj. rewrite sub_spec.
  destruct (is_finite_SF x H) as [[s E]|(s & m & e & E)]; rewrite E.
  - destruct s; reflexivity.
  - rewrite SFsub_diag. reflexivity.
Qed.

(** A zero times a finite number is a zero (of either sign). *)
Lemma mul_zero_l_finite (z m : float) :
  is_zero z = true -> is_finite m = true -> is_zero (z * m) = true.
Proof.
  unfold is_zero. rewrite !eqb_spec, mul_spec. intros Hz Hm.
  destruct (is_finite_SF m Hm) as [[s E]|(s & mm & e & E)]; rewrite E;
    destruct (Prim2SF z) as [sz|sz| |sz mz ez]; cbn in *;
    try discriminate; try reflexivity.
  all: destruct sz; discriminate.
Qed.

End FloatFacts.

(** ** Absent entities *)

(** The four transforms to the engine test their entity first: with the
    entity unset they return the graph as it is, journal included. *)
Lemma toEngine_transforms_unset (self : ParameterNode) (sofaNode : SofaNode) :
  (boundaryROI self = None -> markupsROIToSofaROI self sofaNode = Ok sofaNode) /\
  (gravityVector self = None -> markupsLineToGravityVector self sofaNode = Ok sofaNode) /\
  (modelNode self = None -> modelNodetoSofaNode self sofaNode = Ok sofaNode) /\
  (movingPointNode self = None -> markupsFiducialNodeToSofaPoint self sofaNode = Ok sofaNode).
Proof.
  unfold markupsROIToSofaROI, markupsLineToGravityVector, modelNodetoSofaNode,
    markupsFiducialNodeToSofaPoint.
  repeat split; intros ->; reflexivity.
Qed.

(** C1: the transform from the engine does not test its entity.  With the
    model node unset, [sofaNodeToModelNode] raises [AttributeError] on every
    graph, where the four transforms to the engine return without effect. *)
Theorem sofaNodeToModelNode_unset_raises (self : ParameterNode) (sofaNode : SofaNode) :
  sofaNodeToModelNode (set_modelNode self None) sofaNode = Raise AttributeError /\
  modelNodetoSofaNode (set_modelNode self None) sofaNode = Ok sofaNode.
Proof.
  split; reflexivity.
Qed.

(** ** Gravity from the line marker *)

Lemma line_vector (line : MarkupsNode) (p0 p1 : Vec3) (rest : list Vec3) :
  controlPoints line = p0 :: p1 :: rest ->
  arrayVectorFromMarkupsLinePoints line = Ok (array_sub p1 p0).
Proof.
  intros H. unfold arrayVectorFromMarkupsLinePoints, GetNthControlPointPosition.
  rewrite H. reflexivity.
Qed.

(** The conditional of [markupsLineToGravityVector] has the value
    [overNorm], and its division is never reached with a zero divisor. *)
Lemma guarded_division (v : Vec3) :
  (if negb (linalg_norm v =? 0) then array_div v (linalg_norm v) else Ok v)
  = Ok (overNorm v).
Proof.
  unfold overNorm, array_div.
  destruct (linalg_norm v =? 0); reflexivity.
Qed.

Lemma float_of_int_finite (n : Z) (k : float) :
  float_of_int n = Ok k -> is_finite k = true.
Proof.
  unfold float_of_int.
  destruct (is_finite (nearest_double n)) eqn:E; [|discriminate].
  now intros [= <-].
Qed.

Lemma float_of_int_error (n : Z) (e : Error) :
  float_of_int n = Raise e -> e = OverflowError.
Proof.
  unfold float_of_int.
  destruct (is_finite (nearest_double n)); [discriminate|].
  now intros [= <-].
Qed.

Lemma markupsLineToGravityVector_vector (self : ParameterNode) (sofaNode : SofaNode)
  (line : MarkupsNode) (v : Vec3) (k : float) :
  gravityVector self = Some line ->
  arrayVectorFromMarkupsLinePoints line = Ok v ->
  float_of_int (gravityMagnitude self) = Ok k ->
  markupsLineToGravityVector self sofaNode =
  Ok (set_gravity sofaNode (array_mul (overNorm v) k)).
Proof.
  intros Hl Hv Hk. unfold markupsLineToGravityVector. rewrite Hl, Hv. cbn [bind].
  rewrite guarded_division. cbn [bind]. rewrite Hk. reflexivity.
Qed.

Lemma markupsLineToGravityVector_refused (self : ParameterNode) (sofaNode : SofaNode)
  (line : MarkupsNode) (v : Vec3) (e : Error) :
  gravityVector self = Some line ->
  arrayVectorFromMarkupsLinePoints line = Ok v ->
  float_of_int (gravityMagnitude self) = Raise e ->
  markupsLineToGravityVector self sofaNode = Raise e.
Proof.
  intros Hl Hv Hk. unfold markupsLineToGravityVector. rewrite Hl, Hv. cbn [bind].
  rewrite guarded_division. cbn [bind]. rewrite Hk. reflexivity.
Qed.

Lemma markupsLineToGravityVector_bound (self : ParameterNode) (sofaNode : SofaNode)
  (line : MarkupsNode) (p0 p1 : Vec3) (rest : list Vec3) (k : float) :
  gravityVector self = Some line ->
  controlPoints line = p0 :: p1 :: rest ->
  float_of_int (gravityMagnitude self) = Ok k ->
  markupsLineToGravityVector self sofaNode =
  Ok (set_gravity sofaNode (array_mul (overNorm (array_sub p1 p0)) k)).
Proof.
  intros Hl Hp Hk.
  exact (markupsLineToGravityVector_vector self sofaNode line _ k Hl
           (line_vector line p0 p1 rest Hp) Hk).
Qed.

(** What the code does where the claim C2 fails.  A magnitude of 2^1024 is
    beyond the doubles: the product raises [OverflowError] and the gravity
    is not written.  The square of 1e-200 underflows, the norm of the line
    from the origin to (1e-200, 0, 0) is computed as 0 and the vector is
    written as it is, not as the unit vector (1, 0, 0).  The square of 1e200
    overflows, the norm of the line from the origin to (1e200, 0, 0) is
    computed as an infinity and the gravity written for the magnitude 10 is
    the zero vector, not (10, 0, 0). *)
Lemma line_to_gravity_beyond_range :
  markupsLineToGravityVector hugeMagnitudeScenario loadedScene
  = Raise OverflowError /\
  (exists n : SofaNode,
     markupsLineToGravityVector (lineScenario (mkVec3 1e-200 0 0) 1) loadedScene
     = Ok n /\
     gravity n = mkVec3 1e-200 0 0) /\
  (exists n : SofaNode,
     markupsLineToGravityVector (lineScenario (mkVec3 1e200 0 0) 10) loadedScene
     = Ok n /\
     gravity n = mkVec3 0 0 0).
Proof.
  split; [reflexivity|].
  split; eexists; split; reflexivity.
Qed.

(** C2, as the code has it: for a line marker with endpoints [p0] and [p1]
    and a magnitude that converts to the double [k], the transform writes
    the gravity of the engine node, and nothing else of the graph:
    [(p1 - p0) / |p1 - p0| * k], where [|p1 - p0|] is the rounded norm, and
    [(p1 - p0) * k] when that norm compares equal to zero.  With a magnitude
    that does not convert, the transform raises [OverflowError].  For the
    endpoints (0,-1,0) and (0,1,0) and the magnitude 10 the gravity is
    (0,10,0). *)
Theorem line_to_gravity :
  (forall (self : ParameterNode) (sofaNode : SofaNode) (line : MarkupsNode)
          (p0 p1 : Vec3) (rest : list Vec3) (k : float),
     gravityVector self = Some line ->
     controlPoints line = p0 :: p1 :: rest ->
     float_of_int (gravityMagnitude self) = Ok k ->
     let v := array_sub p1 p0 in
     let direction :=
       if linalg_norm v =? 0 then v
       else mkVec3 (vx v / linalg_norm v) (vy v / linalg_norm v)
                   (vz v / linalg_norm v) in
     exists n : SofaNode,
       markupsLineToGravityVector self sofaNode = Ok n /\
       gravity n = array_mul direction k /\
       journal n = RootGravity :: journal sofaNode /\
       (tetrahedra n, position n, box n, mousePosition n, dofsPosition n)
       = (tetrahedra sofaNode, position sofaNode, box sofaNode,
          mousePosition sofaNode, dofsPosition sofaNode)) /\
  (forall (self : ParameterNode) (sofaNode : SofaNode) (line : MarkupsNode)
          (p0 p1 : Vec3) (rest : list Vec3) (e : Error),
     gravityVector self = Some line ->
     controlPoints line = p0 :: p1 :: rest ->
     float_of_int (gravityMagnitude self) = Raise e ->
     e = OverflowError /\
     markupsLineToGravityVector self sofaNode = Raise OverflowError) /\
  (forall (self : ParameterNode) (sofaNode : SofaNode) (line : MarkupsNode)
          (rest : list Vec3),
     gravityVector self = Some line ->
     controlPoints line = mkVec3 0 (-1) 0 :: mkVec3 0 1 0 :: rest ->
     gravityMagnitude self = 10%Z ->
     exists n : SofaNode,
       markupsLineToGravityVector self sofaNode = Ok n /\
       gravity n = mkVec3 0 10 0).
Proof.
  split; [|split].
  - intros self sofaNode line p0 p1 rest k Hl Hp Hk v direction.
    rewrite (markupsLineToGravityVector_bound self sofaNode line p0 p1 rest k
               Hl Hp Hk).
    eexists. split; [reflexivity|]. repeat split.
  - intros self sofaNode line p0 p1 rest e Hl Hp Hk.
    pose proof (float_of_int_error _ _ Hk) as ->. split; [reflexivity|].
    exact (markupsLineToGravityVector_refused self sofaNode line _ _ Hl
             (line_vector line p0 p1 rest Hp) Hk).
  - intros self sofaNode line rest Hl Hp Hm.
    rewrite (markupsLineToGravityVector_bound self sofaNode line _ _ rest 10
               Hl Hp); [|rewrite Hm; reflexivity].
    eexists. split; reflexivity.
Qed.

Lemma line_to_gravity_witness :
  gravity
    (match markupsLineToGravityVector gravityScenario loadedScene with
     | Ok n => n
     | Raise _ => loadedScene
     end)
  = mkVec3 0 10 0.
Proof.
  destruct (proj2 (proj2 line_to_gravity) gravityScenario loadedScene
              (mkMarkupsNode "Gravity" [mkVec3 0 (-1) 0; mkVec3 0 1 0]) []
              eq_refl eq_refl eq_refl) as (n & E & Hg).
  rewrite E. exact Hg.
Defined.

(** ** The zero-length guard *)

Lemma is_zero_SF (x : float) :
  is_zero x = true -> exists s, Prim2SF x = S754_zero s.
Proof.
  unfold is_zero. rewrite eqb_spec.
  destruct (Prim2SF x) as [s|s| |s m e]; cbn.
  - intros _. now exists s.
  - destruct s; discriminate.
  - discriminate.
  - destruct s; discriminate.
Qed.

(** The doubles have two zeros. *)
Lemma is_zero_cases (x : float) : is_zero x = true -> x = 0 \/ x = (-0).
Proof.
  intros H. destruct (is_zero_SF x H) as [s E].
  rewrite <- (SF2Prim_Prim2SF x), E. destruct s; [right | left]; reflexivity.
Qed.

Lemma overNorm_zero3 (v : Vec3) : is_zero3 v = true -> overNorm v = v.
Proof.
  destruct v as [x y z]. unfold is_zero3. cbn [vx vy vz].
  intros H. apply andb_prop in H as [H Hz]. apply andb_prop in H as [Hx Hy].
  destruct (is_zero_cases x Hx), (is_zero_cases y Hy), (is_zero_cases z Hz);
    subst; reflexivity.
Qed.

Lemma array_sub_diag (p : Vec3) : finite3 p = true -> array_sub p p = vzero.
Proof.
  destruct p as [x y z]. unfold finite3, array_sub, vzero. cbn [vx vy vz].
  intros H. apply andb_prop in H as [H Hz]. apply andb_prop in H as [Hx Hy].
  now rewrite !sub_diag_finite.
Qed.

Lemma array_mul_zero (k : float) :
  is_finite k = true -> is_zero3 (array_mul vzero k) = true.
Proof.
  intros Hk. unfold is_zero3, array_mul, vzero. cbn [vx vy vz].
  now rewrite (mul_zero_l_finite 0 k eq_refl Hk).
Qed.

Lemma line_vector_error (line : MarkupsNode) (e : Error) :
  arrayVectorFromMarkupsLinePoints line = Raise e -> e = MissingControlPoint.
Proof.
  unfold arrayVectorFromMarkupsLinePoints, GetNthControlPointPosition.
  destruct (nth_error (controlPoints line) 0) as [p0|]; cbn [bind];
    [destruct (nth_error (controlPoints line) 1) as [p1|]; cbn [bind]|];
    intros H; inversion H; reflexivity.
Qed.

(** What the code does where the claim C3 fails.  With the magnitude
    10^400, which is beyond the doubles, a line marker whose endpoints
    coincide raises [OverflowError] and no gravity is written; with both
    endpoints at an infinite coordinate their difference is not a number,
    and neither is the gravity written. *)
Lemma zero_length_guard_beyond_range :
  markupsLineToGravityVector
    (coincidingAt (mkVec3 3 (-1) 2.5) (10 ^ 400)) loadedScene
  = Raise OverflowError /\
  (exists n : SofaNode,
     markupsLineToGravityVector
       (coincidingAt (mkVec3 infinity 0 0) 1) loadedScene = Ok n /\
     is_nan (vx (gravity n)) = true /\
     is_zero3 (gravity n) = false).
Proof.
  split; [reflexivity|].
  eexists. split; [reflexivity|]. split; reflexivity.
Qed.

(** C3, as the code has it: the normalisation never divides by zero: the
    transform never fails on its division, and for a zero vector the
    conditional gives the vector unchanged, which the transform scales as it
    is; so a line marker whose two endpoints coincide at finite coordinates
    gives a zero gravity vector for every magnitude that converts to a
    double, and [OverflowError] without a write for the others. *)
Theorem zero_length_guard :
  (forall (self : ParameterNode) (sofaNode : SofaNode),
     markupsLineToGravityVector self sofaNode <> Raise FloatingPointError) /\
  (forall (self : ParameterNode) (sofaNode : SofaNode) (line : MarkupsNode)
          (v : Vec3) (k : float),
     gravityVector self = Some line ->
     arrayVectorFromMarkupsLinePoints line = Ok v ->
     is_zero3 v = true ->
     float_of_int (gravityMagnitude self) = Ok k ->
     (if negb (linalg_norm v =? 0) then array_div v (linalg_norm v) else Ok v)
     = Ok v /\
     exists n : SofaNode,
       markupsLineToGravityVector self sofaNode = Ok n /\
       gravity n = array_mul v k) /\
  (forall (self : ParameterNode) (sofaNode : SofaNode) (line : MarkupsNode)
          (p : Vec3) (rest : list Vec3) (k : float),
     gravityVector self = Some line ->
     controlPoints line = p :: p :: rest ->
     finite3 p = true ->
     float_of_int (gravityMagnitude self) = Ok k ->
     exists n : SofaNode,
       markupsLineToGravityVector self sofaNode = Ok n /\
       is_zero3 (gravity n) = true) /\
  (forall (self : ParameterNode) (sofaNode : SofaNode) (line : MarkupsNode)
          (p : Vec3) (rest : list Vec3) (e : Error),
     gravityVector self = Some line ->
     controlPoints line = p :: p :: rest ->
     float_of_int (gravityMagnitude self) = Raise e ->
     markupsLineToGravityVector self sofaNode = Raise OverflowError).
Proof.
  split; [|split; [|split]].
  - intros self sofaNode. unfold markupsLineToGravityVector.
    destruct (gravityVector self) as [line|]; [|discriminate].
    destruct (arrayVectorFromMarkupsLinePoints line) as [v|e] eqn:E.
    + cbn [bind]. rewrite guarded_division. cbn [bind].
      destruct (float_of_int (gravityMagnitude self)) as [k|e] eqn:Ek;
        cbn [bind]; [discriminate|].
      apply float_of_int_error in Ek. subst e. discriminate.
    + apply line_vector_error in E. subst e. discriminate.
  - intros self sofaNode line v k Hl Hv Hz Hk.
    rewrite guarded_division, (overNorm_zero3 v Hz).
    split; [reflexivity|].
    rewrite (markupsLineToGravityVector_vector self sofaNode line v k Hl Hv Hk).
    rewrite (overNorm_zero3 v Hz).
    eexists. split; reflexivity.
  - intros self sofaNode line p rest k Hl Hp Hfin Hk.
    rewrite (markupsLineToGravityVector_bound self sofaNode line p p rest k
               Hl Hp Hk).
    rewrite (array_sub_diag p Hfin).
    eexists. split; [reflexivity|].
    rewrite (overNorm_zero3 vzero eq_refl). cbn [gravity set_gravity].
    apply array_mul_zero. exact (float_of_int_finite _ _ Hk).
  - intros self sofaNode line p rest e Hl Hp Hk.
    pose proof (float_of_int_error _ _ Hk) as ->.
    exact (markupsLineToGravityVector_refused self sofaNode line _ _ Hl
             (line_vector line p p rest Hp) Hk).
Qed.

Lemma zero_length_guard_witness :
  is_zero3
    (gravity
       (match markupsLineToGravityVector coincidingScenario loadedScene with
        | Ok n => n
        | Raise _ => loadedScene
        end))
  = true.
Proof.
  destruct (proj1 (proj2 (proj2 zero_length_guard)) coincidingScenario loadedScene
              (mkMarkupsNode "Gravity" [mkVec3 3 (-1) 2.5; mkVec3 3 (-1) 2.5])
              (mkVec3 3 (-1) 2.5) [] 10000 eq_refl eq_refl eq_refl eq_refl)
    as (n & E & Hz).
  rewrite E. exact Hz.
Defined.

(** ** The attachment target *)

(** C7: for a point marker that is set, the transform writes the position of
    its first control point, the coordinate list repeated three times in one
    flat row, as the position of the engine node. *)
Theorem fiducial_to_point (self : ParameterNode) (sofaNode : SofaNode)
  (fiducial : MarkupsNode) (p : Vec3) (rest : list Vec3) :
  movingPointNode self = Some fiducial ->
  controlPoints fiducial = p :: rest ->
  markupsFiducialNodeToSofaPoint self sofaNode =
  Ok (set_mousePosition sofaNode
        [[vx p; vy p; vz p; vx p; vy p; vz p; vx p; vy p; vz p]]) /\
  [vx p; vy p; vz p; vx p; vy p; vz p; vx p; vy p; vz p]
  = to_list p ++ to_list p ++ to_list p.
Proof.
  intros Hf Hp. split; [|reflexivity].
  unfold markupsFiducialNodeToSofaPoint, GetNthControlPointPosition.
  rewrite Hf, Hp. reflexivity.
Qed.

Lemma fiducial_to_point_witness :
  mousePosition
    (match markupsFiducialNodeToSofaPoint pointScenario CreateScene with
     | Ok n => n
     | Raise _ => CreateScene
     end)
  = [[1.5; -2; 0.25; 1.5; -2; 0.25; 1.5; -2; 0.25]].
Proof.
  rewrite (proj1 (fiducial_to_point pointScenario CreateScene
                    (mkMarkupsNode "Closest Fiducial" [mkVec3 1.5 (-2) 0.25])
                    (mkVec3 1.5 (-2) 0.25) [] eq_refl eq_refl)).
  reflexivity.
Defined.

(** ** Reset of the parameter node *)

(** C10: after [resetParameterNode] the four entities are unset, [dt] is
    0.01, [currentStep] is 0 and [totalSteps] is -1; [gravityMagnitude] keeps
    the value it had (1 is the class default), and nothing but the parameter
    node changes. *)
Theorem resetParameterNode_fields (self : Logic) :
  let p := parameterNode (resetParameterNode self) in
  modelNode p = None /\ boundaryROI p = None /\
  gravityVector p = None /\ movingPointNode p = None /\
  dt p = 0.01 /\ currentStep p = 0%Z /\ totalSteps p = (-1)%Z /\
  gravityMagnitude p = gravityMagnitude (parameterNode self) /\
  gravityMagnitude defaultParameterNode = 1%Z /\
  set_parameterNode (resetParameterNode self) (parameterNode self) = self.
Proof.
  destruct self as [p n r h g s]. cbn. repeat split.
Qed.

(** ** The order of the doubles *)









(** ** The nearest point *)

Section NearestPoint.

Variable x : Vec3.





End NearestPoint.







(** ** The region from the bounds *)

(** On a mesh without points the bounds are VTK's uninitialised box, no
    error, and [addBoundaryROI] binds a region made from them. *)
Lemma addBoundaryROI_empty_mesh :
  GetBounds emptyMesh = mkBounds 1 (-1) 1 (-1) 1 (-1) /\
  boundaryROI
    (parameterNode (addBoundaryROI emptyMeshLogic (mkROINode vzero vzero)))
  = Some (mkROINode (mkVec3 0 0 0) (mkVec3 1 1 1)).
Proof.
  split; reflexivity.
Qed.

(** C9, as the code has it: the construction of the region has no failure.
    Whatever the mesh, without points too, and without a mesh,
    [addBoundaryROI] binds a region marker; with a mesh its centre and
    half-extents come from the bounds that [GetBounds] gives, and the session
    and the graph are as they were. *)
Theorem addBoundaryROI_always_binds (self : Logic) (roiNode : ROINode) :
  let after := addBoundaryROI self roiNode in
  (exists roi, boundaryROI (parameterNode after) = Some roi) /\
  (forall mesh,
     meshOfModel (modelNode (parameterNode self)) = Some mesh ->
     let b := GetBounds mesh in
     boundaryROI (parameterNode after) =
     Some (mkROINode
             (mkVec3 ((b0 b + b1 b) / 2) ((b2 b + b3 b) / 2) ((b4 b + b5 b) / 2))
             (mkVec3 (abs (b1 b - b0 b) / 2) (abs (b3 b - b2 b) / 2)
                     (abs (b5 b - b4 b) / 2)))) /\
  (meshOfModel (modelNode (parameterNode self)) = None ->
     boundaryROI (parameterNode after) = Some roiNode) /\
  sessionState after = sessionState self /\
  rootNode after = rootNode self.
Proof.
  cbn zeta. unfold addBoundaryROI.
  repeat split.
  - eexists. reflexivity.
  - intros mesh ->. reflexivity.
  - intros ->. reflexivity.
Qed.

(** ** The session *)

(** *** What the transforms write *)

Lemma ok_of_not_raises {A : Type} (c : Exc A) :
  raises c = false -> exists a, c = Ok a.
Proof.
  destruct c as [a|e]; [now exists a|discriminate].
Qed.

Lemma modelNodetoSofaNode_uploads (p : ParameterNode) (n : SofaNode) :
  uploadable p = true ->
  exists cells points,
    modelNodetoSofaNode p n = Ok (set_position (set_tetrahedra n cells) points).
Proof.
  unfold uploadable, modelNodetoSofaNode.
  destruct (modelNode p) as [model|]; [|discriminate].
  destruct (GetUnstructuredGrid model) as [grid|]; [|discriminate].
  intros H. apply negb_true_iff, ok_of_not_raises in H as [cells ->].
  now exists cells, (meshPoints grid).
Qed.

Lemma markupsFiducialNodeToSofaPoint_keeps : keepsTopology markupsFiducialNodeToSofaPoint.
Proof.
  intros p n n'. unfold markupsFiducialNodeToSofaPoint.
  destruct (movingPointNode p) as [f|]; [|now intros [= <-]].
  destruct (GetNthControlPointPosition f 0); cbn [bind]; [|discriminate].
  now intros [= <-].
Qed.

Lemma markupsROIToSofaROI_keeps : keepsTopology markupsROIToSofaROI.
Proof.
  intros p n n'. unfold markupsROIToSofaROI.
  destruct (boundaryROI p); now intros [= <-].
Qed.

Lemma markupsLineToGravityVector_keeps : keepsTopology markupsLineToGravityVector.
Proof.
  intros p n n'. unfold markupsLineToGravityVector.
  destruct (gravityVector p) as [line|]; [|now intros [= <-]].
  destruct (arrayVectorFromMarkupsLinePoints line) as [v|e]; cbn [bind];
    [|discriminate].
  rewrite guarded_division. cbn [bind].
  destruct (float_of_int (gravityMagnitude p)) as [k|e]; cbn [bind];
    [|discriminate].
  now intros [= <-].
Qed.

Lemma toEngine_graphOnly (t : ParameterNode -> SofaNode -> Exc SofaNode) :
  keepsTopology t -> graphOnly (toEngine t).
Proof.
  intros Ht l. unfold toEngine.
  destruct (t (parameterNode l) (rootNode l)) as [n|e] eqn:E; cbn [fst].
  - exists n. split; [reflexivity|]. exact (Ht _ _ _ E).
  - exists (rootNode l). split; [now destruct l|reflexivity].
Qed.

Lemma graphOnly_andThen (a b : Cmd) :
  graphOnly a -> graphOnly b -> graphOnly (a >> b).
Proof.
  intros Ha Hb l. unfold andThen.
  destruct (Ha l) as (n1 & E1 & W1).
  destruct (a l) as [l1 [e|]] eqn:Ea; cbn [fst] in *.
  - exists n1. now split.
  - destruct (Hb l1) as (n2 & E2 & W2). exists n2.
    subst l1. split.
    + rewrite E2. reflexivity.
    + rewrite W2. exact W1.
Qed.

Lemma markerMappings_graphOnly : graphOnly markerMappings.
Proof.
  unfold markerMappings.
  repeat apply graphOnly_andThen; apply toEngine_graphOnly.
  - exact markupsFiducialNodeToSofaPoint_keeps.
  - exact markupsROIToSofaROI_keeps.
  - exact markupsLineToGravityVector_keeps.
Qed.

(** *** The run of the mappings to the engine *)

(** [runToEngine] changes the graph and the guard, nothing else; with the
    guard set it uploads nothing, with the guard free and the mesh ready it
    uploads once and sets the guard, and with the model unset it leaves the
    guard free. *)
Lemma runToEngine_shape (l : Logic) :
  exists n g,
    fst (runToEngine l) = set_onceGuard (set_rootNode l n) g /\
    (onceGuard l = true -> g = true /\ writesTo ContainerTetrahedra n = uploads l) /\
    (onceGuard l = false -> uploadable (parameterNode l) = true ->
       g = true /\ writesTo ContainerTetrahedra n = S (uploads l)) /\
    (onceGuard l = false -> modelNode (parameterNode l) = None ->
       g = false /\ writesTo ContainerTetrahedra n = uploads l).
Proof.
  unfold runToEngine. fold markerMappings. unfold andThen, RunOnce.
  destruct (onceGuard l) eqn:G.
  - destruct (markerMappings_graphOnly l) as (n & E & W).
    exists n, true. rewrite E. split.
    + destruct l; cbn in *; now subst.
    + repeat split; try congruence; discriminate.
  - destruct (modelNodetoSofaNode (parameterNode l) (rootNode l)) as [n1|e] eqn:T.
    + set (l1 := set_onceGuard (set_rootNode l n1) (isBound (modelNode (parameterNode l)))).
      destruct (markerMappings_graphOnly l1) as (n & E & W).
      exists n, (isBound (modelNode (parameterNode l))).
      rewrite E. split; [reflexivity|].
      split; [discriminate|]. split.
      * intros _ Hu.
        destruct (modelNodetoSofaNode_uploads _ (rootNode l) Hu) as (c & pts & T').
        rewrite T in T'. injection T' as ->.
        split.
        -- unfold uploadable in Hu. now destruct (modelNode (parameterNode l)).
        -- rewrite W. reflexivity.
      * intros _ Hm. rewrite Hm. split; [reflexivity|].
        rewrite W. unfold modelNodetoSofaNode in T. rewrite Hm in T.
        injection T as <-. reflexivity.
    + cbn [fst]. exists (rootNode l), false. split.
      * destruct l; cbn in *; now subst.
      * split; [discriminate|]. split.
        -- intros _ Hu.
           destruct (modelNodetoSofaNode_uploads _ (rootNode l) Hu) as (c & pts & T').
           congruence.
        -- intros _ Hm. now split.
Qed.

(** *** Success of a configured session *)

Lemma andThen_None (a b : Cmd) (l : Logic) :
  snd (a l) = None -> (a >> b) l = b (fst (a l)).
Proof.
  unfold andThen. destruct (a l) as [l1 [e|]]; cbn; [discriminate|reflexivity].
Qed.

Lemma toEngine_None (t : ParameterNode -> SofaNode -> Exc SofaNode) (l : Logic) :
  raises (t (parameterNode l) (rootNode l)) = false ->
  exists n, toEngine t l = (set_rootNode l n, None).
Proof.
  intros H. apply ok_of_not_raises in H as [n H].
  exists n. unfold toEngine. now rewrite H.
Qed.

Lemma markupsFiducialNodeToSofaPoint_ok (p : ParameterNode) (n : SofaNode) :
  configured p = true -> raises (markupsFiducialNodeToSofaPoint p n) = false.
Proof.
  unfold configured, markupsFiducialNodeToSofaPoint. intros H.
  apply andb_prop in H as [H _]. apply andb_prop in H as [_ H].
  destruct (movingPointNode p) as [f|]; [|reflexivity].
  apply negb_true_iff, ok_of_not_raises in H as [q ->]. reflexivity.
Qed.

Lemma markupsROIToSofaROI_ok (p : ParameterNode) (n : SofaNode) :
  raises (markupsROIToSofaROI p n) = false.
Proof.
  unfold markupsROIToSofaROI. now destruct (boundaryROI p).
Qed.

Lemma markupsLineToGravityVector_ok (p : ParameterNode) (n : SofaNode) :
  configured p = true -> raises (markupsLineToGravityVector p n) = false.
Proof.
  unfold configured, markupsLineToGravityVector. intros H.
  apply andb_prop in H as [_ H].
  destruct (gravityVector p) as [line|]; [|reflexivity].
  apply andb_prop in H as [Hv Hk].
  apply negb_true_iff, ok_of_not_raises in Hv as [v ->].
  apply negb_true_iff, ok_of_not_raises in Hk as [k ->]. cbn [bind].
  rewrite guarded_division. reflexivity.
Qed.

Lemma markerMappings_None (l : Logic) :
  configured (parameterNode l) = true -> snd (markerMappings l) = None.
Proof.
  intros H. unfold markerMappings.
  destruct (toEngine_None markupsFiducialNodeToSofaPoint l) as [n1 E1];
    [now apply markupsFiducialNodeToSofaPoint_ok|].
  rewrite andThen_None by now rewrite E1. rewrite E1. cbn [fst].
  destruct (toEngine_None markupsROIToSofaROI (set_rootNode l n1)) as [n2 E2];
    [apply markupsROIToSofaROI_ok|].
  rewrite andThen_None by now rewrite E2. rewrite E2. cbn [fst].
  destruct (toEngine_None markupsLineToGravityVector
              (set_rootNode (set_rootNode l n1) n2)) as [n3 E3];
    [now apply markupsLineToGravityVector_ok|].
  now rewrite E3.
Qed.

Lemma runToEngine_None (l : Logic) :
  configured (parameterNode l) = true -> snd (runToEngine l) = None.
Proof.
  intros H. unfold runToEngine. fold markerMappings. unfold andThen, RunOnce.
  destruct (onceGuard l).
  - now apply markerMappings_None.
  - assert (Hu : uploadable (parameterNode l) = true)
      by (unfold configured in H; apply andb_prop in H as [H _];
          now apply andb_prop in H as [H _]).
    destruct (modelNodetoSofaNode_uploads _ (rootNode l) Hu) as (c & pts & ->).
    now apply markerMappings_None.
Qed.

(** The read-back keeps a configured session configured, and leaves the
    session fields of the parameter node alone. *)
Lemma sofaNodeToModelNode_ok (p : ParameterNode) (n : SofaNode) :
  uploadable p = true ->
  exists p',
    sofaNodeToModelNode p n = Ok p' /\
    configured p' = configured p /\ uploadable p' = true /\
    currentStep p' = currentStep p /\ totalSteps p' = totalSteps p /\
    dt p' = dt p.
Proof.
  unfold sofaNodeToModelNode, configured, uploadable.
  destruct (modelNode p) as [model|] eqn:M; [|discriminate].
  destruct (GetUnstructuredGrid model) as [grid|] eqn:Gd; [|discriminate].
  intros H. eexists. split; [reflexivity|].
  cbn. rewrite H. repeat split.
Qed.

Lemma configured_uploadable (p : ParameterNode) :
  configured p = true -> uploadable p = true.
Proof.
  unfold configured. intros H.
  apply andb_prop in H as [H _]. now apply andb_prop in H as [H _].
Qed.

Section SessionFacts.

Variable animate : SofaNode -> float -> list Vec3.

(** The body of a step on a configured session: it succeeds, and it changes
    neither the phase nor the session fields of the parameter node. *)
Lemma stepBody_ok (l : Logic) :
  configured (parameterNode l) = true ->
  exists l1,
    (runToEngine >> advance animate >> runFromEngine >> recordStep) l = (l1, None) /\
    configured (parameterNode l1) = true /\
    currentStep (parameterNode l1) = currentStep (parameterNode l) /\
    totalSteps (parameterNode l1) = totalSteps (parameterNode l) /\
    simulationRunning l1 = simulationRunning l.
Proof.
  intros H.
  rewrite andThen_None by now apply runToEngine_None.
  destruct (runToEngine_shape l) as (n & g & E & _). rewrite E.
  unfold advance at 1. rewrite andThen_None by reflexivity.
  unfold pass at 1. cbn [fst].
  unfold runFromEngine, fromEngine, andThen. cbn [parameterNode set_rootNode set_onceGuard rootNode].
  match goal with
  | |- context [sofaNodeToModelNode (parameterNode l) ?m] =>
      destruct (sofaNodeToModelNode_ok (parameterNode l) m
                  (configured_uploadable _ H))
        as (p' & -> & Hc & _ & Hs & Ht & _)
  end.
  eexists. split; [reflexivity|].
  cbn. rewrite Hc, Hs, Ht. now repeat split.
Qed.

Lemma simulationStep_ok (l : Logic) :
  simulationRunning l = true ->
  configured (parameterNode l) = true ->
  exists l',
    simulationStep animate l = (l', None) /\
    configured (parameterNode l') = true /\
    currentStep (parameterNode l') = (currentStep (parameterNode l) + 1)%Z /\
    totalSteps (parameterNode l') = totalSteps (parameterNode l) /\
    simulationRunning l' = negb (budgetReached (parameterNode l')).
Proof.
  intros Hr Hc. unfold simulationStep. rewrite Hr. cbn [negb].
  destruct (stepBody_ok l Hc) as (l1 & -> & Hc1 & Hs1 & Ht1 & Hr1).
  destruct (budgetReached _) eqn:B; eexists; (split; [reflexivity|]).
  - cbn. cbn in B. rewrite B. now rewrite Hs1, Ht1.
  - cbn. cbn in B. rewrite B, Hr1, Hr, Hs1, Ht1. now repeat split.
Qed.

(** A running session whose entities are all unset: the mappings to the
    engine do nothing, and the step fails on the read-back of the model. *)
Lemma simulationStep_unset_model (l : Logic) :
  simulationRunning l = true ->
  modelNode (parameterNode l) = None ->
  movingPointNode (parameterNode l) = None ->
  gravityVector (parameterNode l) = None ->
  snd (simulationStep animate l) = Some AttributeError.
Proof.
  destruct l as [p n r h g s]. destruct p as [m f b v k d c t mt].
  cbn. intros -> -> -> ->.
  destruct g, b; reflexivity.
Qed.

(** While idle, a step fails with [NotRunning] and changes nothing. *)
Lemma simulationStep_idle (l : Logic) :
  simulationRunning l = false -> simulationStep animate l = (l, Some NotRunning).
Proof.
  intros H. unfold simulationStep. now rewrite H.
Qed.

End SessionFacts.

(** *** Start, steps and the budget *)

Lemma pass_andThen (f : Logic -> Logic) (b : Cmd) (l : Logic) :
  (pass f >> b) l = b (f l).
Proof. reflexivity. Qed.

Lemma SlicerSofaLogic_startSimulation_ok (l : Logic) :
  simulationRunning l = false ->
  configured (parameterNode l) = true ->
  exists n g,
    SlicerSofaLogic_startSimulation l =
    (set_simulationRunning
       (set_parameterNode (set_onceGuard (set_rootNode l n) g)
          (set_currentStep (parameterNode l) 0))
       true, None).
Proof.
  intros Hr Hc. unfold SlicerSofaLogic_startSimulation. rewrite Hr.
  set (l0 := set_onceGuard l false).
  assert (H0 : configured (parameterNode l0) = true) by exact Hc.
  pose proof (runToEngine_None l0 H0) as Hn.
  destruct (runToEngine_shape l0) as (n & g & E & _).
  destruct (runToEngine l0) as [l1 o]. cbn [fst snd] in *. subst o l1.
  exists n, g. reflexivity.
Qed.

Lemma startSimulation_ok (l : Logic) :
  simulationRunning l = false ->
  configured (parameterNode l) = true ->
  exists l',
    startSimulation l = (l', None) /\
    simulationRunning l' = true /\
    configured (parameterNode l') = true /\
    currentStep (parameterNode l') = 0%Z /\
    totalSteps (parameterNode l') = totalSteps (parameterNode l).
Proof.
  intros Hr Hc. unfold startSimulation, setupScene.
  rewrite pass_andThen.
  destruct (SlicerSofaLogic_startSimulation_ok (set_engineGraphHandle l true) Hr Hc)
    as (n & g & E).
  rewrite andThen_None by now rewrite E. rewrite E.
  eexists. split; [reflexivity|].
  cbn. now repeat split.
Qed.

Section Budget.

Variable animate : SofaNode -> float -> list Vec3.

(** As long as the budget is not reached, the steps succeed and the session
    keeps running. *)
Lemma steps_below_budget (n : nat) (l : Logic) :
  simulationRunning l = true ->
  configured (parameterNode l) = true ->
  ((totalSteps (parameterNode l) < 0)%Z \/
   (currentStep (parameterNode l) + Z.of_nat n < totalSteps (parameterNode l))%Z) ->
  exists l',
    steps animate n l = (l', None) /\
    simulationRunning l' = true /\
    configured (parameterNode l') = true /\
    currentStep (parameterNode l') = (currentStep (parameterNode l) + Z.of_nat n)%Z /\
    totalSteps (parameterNode l') = totalSteps (parameterNode l).
Proof.
  revert l. induction n as [|n IH]; intros l Hr Hc Hb.
  - exists l. cbn. rewrite Z.add_0_r. now repeat split.
  - destruct (simulationStep_ok animate l Hr Hc) as (l1 & E1 & Hc1 & Hs1 & Ht1 & Hr1).
    assert (Hr1' : simulationRunning l1 = true).
    { rewrite Hr1. unfold budgetReached. rewrite Hs1, Ht1.
      apply negb_true_iff, andb_false_iff.
      destruct Hb as [Hb|Hb]; [left|right]; lia. }
    destruct (IH l1 Hr1' Hc1) as (l' & E' & Hr' & Hc' & Hs' & Ht').
    { rewrite Hs1, Ht1. destruct Hb as [Hb|Hb]; [left|right]; lia. }
    exists l'. unfold steps in *. cbn [times].
    rewrite andThen_None by now rewrite E1. rewrite E1. cbn [fst].
    split; [exact E'|]. repeat split; try assumption; lia.
Qed.

(** The step that brings the step index to the budget succeeds and stops the
    session. *)
Lemma step_reaching_budget (l : Logic) :
  simulationRunning l = true ->
  configured (parameterNode l) = true ->
  (0 <= totalSteps (parameterNode l))%Z ->
  (currentStep (parameterNode l) + 1 = totalSteps (parameterNode l))%Z ->
  exists l',
    simulationStep animate l = (l', None) /\
    simulationRunning l' = false /\
    currentStep (parameterNode l') = totalSteps (parameterNode l).
Proof.
  intros Hr Hc H0 Hb.
  destruct (simulationStep_ok animate l Hr Hc) as (l1 & E1 & Hc1 & Hs1 & Ht1 & Hr1).
  exists l1. split; [exact E1|]. split; [|lia].
  rewrite Hr1. unfold budgetReached. rewrite Hs1, Ht1.
  apply negb_false_iff, andb_true_iff. split; lia.
Qed.

Lemma andThen_assoc (a b c : Cmd) (l : Logic) :
  ((a >> b) >> c) l = (a >> (b >> c)) l.
Proof.
  unfold andThen. destruct (a l) as [l1 [e|]]; reflexivity.
Qed.

Lemma andThen_ext (a b b' : Cmd) (l : Logic) :
  (forall l1, b l1 = b' l1) -> (a >> b) l = (a >> b') l.
Proof.
  intros H. unfold andThen. destruct (a l) as [l1 [e|]]; [reflexivity|apply H].
Qed.

Lemma times_add (n m : nat) (c : Cmd) (l : Logic) :
  times (n + m) c l = (times n c >> times m c) l.
Proof.
  revert l. induction n as [|n IH]; intros l.
  - reflexivity.
  - cbn [Nat.add times]. rewrite andThen_assoc.
    apply andThen_ext. exact IH.
Qed.

End Budget.

Section StepBudget.

Variable animate : SofaNode -> float -> list Vec3.

(** C5: a configured session with a step budget of 5, started from idle:
    the first five calls of [simulationStep] succeed, the fifth stops the
    session at step index 5, and the sixth fails with [NotRunning]; with a
    budget of -1 every call succeeds and the session keeps running. *)
Theorem step_budget (l : Logic) :
  simulationRunning l = false ->
  configured (parameterNode l) = true ->
  (totalSteps (parameterNode l) = 5%Z ->
   exists l0 l5,
     startSimulation l = (l0, None) /\
     (forall k, (k < 5)%nat ->
        exists lk, steps animate k l0 = (lk, None) /\ simulationRunning lk = true) /\
     steps animate 5 l0 = (l5, None) /\
     simulationRunning l5 = false /\
     currentStep (parameterNode l5) = 5%Z /\
     simulationStep animate l5 = (l5, Some NotRunning)) /\
  (totalSteps (parameterNode l) = (-1)%Z ->
   exists l0,
     startSimulation l = (l0, None) /\
     forall n, exists ln,
       steps animate n l0 = (ln, None) /\
       simulationRunning ln = true /\
       currentStep (parameterNode ln) = Z.of_nat n).
Proof.
  intros Hr Hc.
  destruct (startSimulation_ok l Hr Hc) as (l0 & E0 & Hr0 & Hc0 & Hs0 & Ht0).
  split; intros HB; rewrite HB in Ht0.
  - destruct (steps_below_budget animate 4 l0 Hr0 Hc0) as (l4 & E4 & Hr4 & Hc4 & Hs4 & Ht4);
      [right; rewrite Hs0, Ht0; reflexivity|].
    destruct (step_reaching_budget animate l4 Hr4 Hc4) as (l5 & E5 & Hr5 & Hs5);
      [lia|lia|].
    exists l0, l5. split; [exact E0|]. split; [|split; [|split; [|split]]].
    + intros k Hk.
      destruct (steps_below_budget animate k l0 Hr0 Hc0) as (lk & Ek & Hrk & _);
        [right; lia|].
      now exists lk.
    + unfold steps in *. change 5%nat with (4 + 1)%nat. rewrite times_add.
      rewrite andThen_None by now rewrite E4. rewrite E4.
      cbn [fst times]. rewrite andThen_None by now rewrite E5. now rewrite E5.
    + exact Hr5.
    + lia.
    + now apply simulationStep_idle.
  - exists l0. split; [exact E0|]. intros n.
    destruct (steps_below_budget animate n l0 Hr0 Hc0) as (ln & En & Hrn & _ & Hsn & _);
      [left; lia|].
    exists ln. repeat split; try assumption. lia.
Qed.

End StepBudget.

(** *** Stop *)

Lemma set_simulationRunning_same (l : Logic) (b : bool) :
  simulationRunning l = b -> set_simulationRunning l b = l.
Proof.
  destruct l. cbn. now intros ->.
Qed.

Lemma stopSimulation_idle (l : Logic) :
  simulationRunning l = false -> stopSimulation l = (Modified l, None).
Proof.
  intros H. unfold stopSimulation, SlicerSofaLogic_stopSimulation.
  rewrite !pass_andThen. rewrite H.
  now rewrite (set_simulationRunning_same l false H).
Qed.

Lemma stopSimulation_stops (l : Logic) :
  snd (stopSimulation l) = None /\
  simulationRunning (fst (stopSimulation l)) = false /\
  rootNode (fst (stopSimulation l)) = rootNode l /\
  onceGuard (fst (stopSimulation l)) = onceGuard l /\
  uploadable (parameterNode (fst (stopSimulation l))) = uploadable (parameterNode l).
Proof.
  unfold stopSimulation, SlicerSofaLogic_stopSimulation.
  rewrite !pass_andThen. destruct (simulationRunning l); cbn; repeat split.
Qed.

Lemma Modified_iter (n : nat) (l : Logic) :
  sessionState (Nat.iter n Modified l) = sessionState l /\
  simulationRunning (Nat.iter n Modified l) = simulationRunning l /\
  rootNode (Nat.iter n Modified l) = rootNode l /\
  onceGuard (Nat.iter n Modified l) = onceGuard l /\
  sequences (Nat.iter n Modified l) = sequences l.
Proof.
  induction n as [|n IH]; [now repeat split|].
  destruct IH as (H1 & H2 & H3 & H4 & H5). cbn [Nat.iter].
  repeat split; assumption.
Qed.

Lemma stops_idle (n : nat) (l : Logic) :
  simulationRunning l = false ->
  times n stopSimulation l = (Nat.iter n Modified l, None).
Proof.
  revert l. induction n as [|n IH]; intros l H; [reflexivity|].
  cbn [times]. rewrite andThen_None by now rewrite stopSimulation_idle.
  rewrite stopSimulation_idle by assumption. cbn [fst].
  rewrite IH by exact H. now rewrite Nat.iter_succ_r.
Qed.

(** C6: on an idle session [stopSimulation] raises nothing and does nothing
    but notify the observers of the parameter node; the step index and the
    rest of the session state stay, however many times it is called, and
    every call leaves the session idle. *)
Theorem stop_idempotent :
  (forall (l : Logic) (n : nat),
     simulationRunning l = false ->
     stopSimulation l = (Modified l, None) /\
     currentStep (parameterNode (fst (stopSimulation l)))
     = currentStep (parameterNode l) /\
     snd (times n stopSimulation l) = None /\
     sessionState (fst (times n stopSimulation l)) = sessionState l /\
     rootNode (fst (times n stopSimulation l)) = rootNode l /\
     sequences (fst (times n stopSimulation l)) = sequences l) /\
  (forall (l : Logic) (n : nat),
     let stopped := fst (stopSimulation l) in
     snd (stopSimulation l) = None /\
     simulationRunning stopped = false /\
     snd (times n stopSimulation stopped) = None /\
     sessionState (fst (times n stopSimulation stopped)) = sessionState stopped).
Proof.
  split.
  - intros l n H.
    rewrite (stopSimulation_idle l H), (stops_idle n l H). cbn [fst snd].
    destruct (Modified_iter n l) as (H1 & _ & H3 & _ & H5).
    now repeat split.
  - intros l n stopped.
    destruct (stopSimulation_stops l) as (H1 & H2 & _).
    subst stopped. rewrite (stops_idle n _ H2). cbn [fst snd].
    destruct (Modified_iter n (fst (stopSimulation l))) as (H3 & _).
    now repeat split.
Qed.

(** *** The run-once upload *)

Lemma keepsUploads_andThen (a b : Cmd) :
  keepsUploads a -> keepsUploads b -> keepsUploads (a >> b).
Proof.
  intros Ha Hb l. unfold andThen.
  destruct (Ha l) as [G U]. destruct (a l) as [l1 [e|]]; cbn [fst] in *.
  - now split.
  - destruct (Hb l1) as [G1 U1]. split; congruence.
Qed.

Lemma keepsUploads_fromEngine (t : ParameterNode -> SofaNode -> Exc ParameterNode) :
  keepsUploads (fromEngine t).
Proof.
  intros l. unfold fromEngine.
  destruct (t (parameterNode l) (rootNode l)); now split.
Qed.

Lemma andThen_unfold (a b : Cmd) (l : Logic) :
  (a >> b) l =
  match a l with
  | (l1, None) => b l1
  | (l1, Some e) => (l1, Some e)
  end.
Proof. reflexivity. Qed.

Section RunOnceFacts.

Variable animate : SofaNode -> float -> list Vec3.

Lemma keepsUploads_afterToEngine :
  keepsUploads (advance animate >> runFromEngine >> recordStep).
Proof.
  repeat apply keepsUploads_andThen.
  - intros l. now split.
  - apply keepsUploads_fromEngine.
  - intros l. now split.
Qed.

(** The guard and the uploads after a step are those after its run of the
    mappings to the engine. *)
Lemma simulationStep_uploads (l : Logic) :
  simulationRunning l = true ->
  onceGuard (fst (simulationStep animate l)) = onceGuard (fst (runToEngine l)) /\
  uploads (fst (simulationStep animate l)) = uploads (fst (runToEngine l)).
Proof.
  intros Hr. unfold simulationStep. rewrite Hr. cbn [negb].
  rewrite (andThen_unfold runToEngine).
  destruct (runToEngine l) as [l1 [e|]]; cbn [fst].
  - now split.
  - destruct (keepsUploads_afterToEngine l1) as [G U].
    destruct ((advance animate >> runFromEngine >> recordStep) l1) as [l2 [e|]];
      cbn [fst] in *.
    + now split.
    + destruct (budgetReached _); now split.
Qed.

(** Once the guard is set, no call of a running or idle session uploads. *)
Lemma simulationStep_guarded (l : Logic) :
  onceGuard l = true ->
  onceGuard (fst (simulationStep animate l)) = true /\
  uploads (fst (simulationStep animate l)) = uploads l.
Proof.
  intros G. destruct (simulationRunning l) eqn:Hr.
  - destruct (simulationStep_uploads l Hr) as [-> ->].
    destruct (runToEngine_shape l) as (n & g & -> & H & _).
    destruct (H G) as [-> W]. now split.
  - rewrite simulationStep_idle by assumption. now split.
Qed.

Lemma doCalls_guarded (cs : list Call) (l : Logic) :
  onceGuard l = true ->
  onceGuard (doCalls animate cs l) = true /\
  uploads (doCalls animate cs l) = uploads l.
Proof.
  revert l. induction cs as [|c cs IH]; intros l G; [now split|].
  unfold doCalls in *. cbn [fold_left].
  assert (H : onceGuard (doCall animate c l) = true /\
              uploads (doCall animate c l) = uploads l).
  { destruct c as [|f]; [now apply simulationStep_guarded|now split]. }
  destruct H as [G1 U1]. destruct (IH _ G1) as [G2 U2]. split; congruence.
Qed.

(** With the guard free, the first step of a running session whose mesh is
    ready uploads. *)
Lemma simulationStep_first_upload (l : Logic) :
  simulationRunning l = true ->
  onceGuard l = false ->
  uploadable (parameterNode l) = true ->
  onceGuard (fst (simulationStep animate l)) = true /\
  uploads (fst (simulationStep animate l)) = S (uploads l).
Proof.
  intros Hr G Hu.
  destruct (simulationStep_uploads l Hr) as [-> ->].
  destruct (runToEngine_shape l) as (n & g & -> & _ & H & _).
  destruct (H G Hu) as [-> W]. now split.
Qed.

End RunOnceFacts.

(** The guard and the uploads after [startSimulation] on an idle session are
    those after the run of the mappings with the guard re-armed. *)
Lemma startSimulation_uploads (l : Logic) :
  simulationRunning l = false ->
  exists n g,
    onceGuard (fst (startSimulation l)) = g /\
    uploads (fst (startSimulation l)) = writesTo ContainerTetrahedra n /\
    (uploadable (parameterNode l) = true ->
       g = true /\ writesTo ContainerTetrahedra n = S (uploads l)) /\
    (modelNode (parameterNode l) = None ->
       g = false /\ writesTo ContainerTetrahedra n = uploads l).
Proof.
  intros Hr. unfold startSimulation, setupScene. rewrite pass_andThen.
  rewrite andThen_unfold. unfold SlicerSofaLogic_startSimulation.
  cbn [simulationRunning set_engineGraphHandle]. rewrite Hr.
  set (l0 := set_onceGuard (set_engineGraphHandle l true) false).
  destruct (runToEngine_shape l0) as (n & g & E & _ & Hu & Hm).
  exists n, g.
  destruct (runToEngine l0) as [l1 [e|]]; cbn [fst] in E; subst l1; cbn;
    (split; [reflexivity|]); (split; [reflexivity|]); split; intros H.
  all: first [apply (Hu eq_refl H) | apply (Hm eq_refl H)].
Qed.

Section OncePerSession.

Variable animate : SofaNode -> float -> list Vec3.

(** C4: the topology upload of [modelNodetoSofaNode] runs once in a session.
    From an idle session whose mesh is ready, [startSimulation] uploads once
    and no later call of [simulationStep] uploads again, whatever the
    application edits in between; after [stopSimulation] the next
    [startSimulation] uploads once more and its steps do not.  An attempt
    with the model unset uploads nothing and leaves the guard free, so that
    the next step made with a mesh uploads. *)
Theorem once_per_session :
  (forall (l : Logic) (calls1 calls2 : list Call),
     simulationRunning l = false ->
     uploadable (parameterNode l) = true ->
     let started := fst (startSimulation l) in
     let stepped := doCalls animate calls1 started in
     let stopped := fst (stopSimulation stepped) in
     let restarted := fst (startSimulation stopped) in
     uploads started = S (uploads l) /\
     uploads stepped = S (uploads l) /\
     uploads stopped = S (uploads l) /\
     (uploadable (parameterNode stopped) = true ->
        uploads restarted = S (S (uploads l)) /\
        uploads (doCalls animate calls2 restarted) = S (S (uploads l)))) /\
  (forall (l : Logic),
     simulationRunning l = false ->
     modelNode (parameterNode l) = None ->
     let started := fst (startSimulation l) in
     onceGuard started = false /\
     uploads started = uploads l /\
     forall f : ParameterNode -> ParameterNode,
       simulationRunning started = true ->
       uploadable (f (parameterNode started)) = true ->
       uploads (doCalls animate [Edit f; CallStep] started) = S (uploads l)).
Proof.
  split.
  - intros l calls1 calls2 Hr Hu started stepped stopped restarted.
    destruct (startSimulation_uploads l Hr) as (n & g & G1 & U1 & H1 & _).
    destruct (H1 Hu) as [-> W1]. fold started in G1, U1.
    destruct (doCalls_guarded animate calls1 started G1) as [G2 U2].
    fold stepped in G2, U2.
    destruct (stopSimulation_stops stepped) as (_ & Hr3 & R3 & _ & _).
    fold stopped in Hr3, R3.
    assert (U3 : uploads stopped = uploads stepped)
      by (unfold uploads; now rewrite R3).
    repeat split; try congruence.
    + destruct (startSimulation_uploads stopped Hr3) as (n4 & g4 & G4 & U4 & H4 & _).
      destruct (H4 H) as [-> W4]. fold restarted in U4. congruence.
    + destruct (startSimulation_uploads stopped Hr3) as (n4 & g4 & G4 & U4 & H4 & _).
      destruct (H4 H) as [-> W4]. fold restarted in G4, U4.
      destruct (doCalls_guarded animate calls2 restarted G4) as [_ U5].
      congruence.
  - intros l Hr Hm started.
    destruct (startSimulation_uploads l Hr) as (n & g & G1 & U1 & _ & H1).
    destruct (H1 Hm) as [-> W1]. fold started in G1, U1.
    repeat split; try congruence.
    intros f Hrs Hf. cbn [doCalls fold_left doCall].
    set (edited := set_parameterNode started (f (parameterNode started))).
    destruct (simulationStep_first_upload animate edited Hrs G1 Hf) as [_ U].
    rewrite U. unfold uploads in *. cbn [edited rootNode set_parameterNode].
    congruence.
Qed.

End OncePerSession.

(** ** A session on a one-tetrahedron mesh *)

Lemma once_per_session_witness :
  let started := fst (startSimulation tetraSession) in
  let stepped := doCalls atRest [CallStep; CallStep; CallStep] started in
  uploads tetraSession = 0%nat /\
  uploads started = 1%nat /\
  uploads stepped = 1%nat.
Proof.
  intros started stepped.
  destruct (proj1 (once_per_session atRest) tetraSession
              [CallStep; CallStep; CallStep] [] eq_refl eq_refl)
    as (H1 & H2 & _).
  split; [reflexivity|]. split; [exact H1|exact H2].
Defined.

Lemma step_budget_witness :
  exists l0 l5,
    startSimulation tetraSession = (l0, None) /\
    steps atRest 5 l0 = (l5, None) /\
    simulationRunning l5 = false /\
    simulationStep atRest l5 = (l5, Some NotRunning).
Proof.
  destruct (proj1 (step_budget atRest tetraSession eq_refl eq_refl) eq_refl)
    as (l0 & l5 & H0 & _ & H5 & Hr & _ & H6).
  exists l0, l5. repeat split; assumption.
Defined.

Lemma stop_idempotent_witness :
  stopSimulation tetraSession = (Modified tetraSession, None) /\
  sessionState (fst (times 3 stopSimulation tetraSession))
  = sessionState tetraSession.
Proof.
  destruct (proj1 stop_idempotent tetraSession 3%nat eq_refl)
    as (H1 & _ & _ & H4 & _).
  split; [exact H1|exact H4].
Defined.

Lemma addBoundaryROI_always_binds_witness :
  boundaryROI
    (parameterNode (addBoundaryROI emptyMeshLogic (mkROINode vzero vzero)))
  = Some (mkROINode (mkVec3 0 0 0) (mkVec3 1 1 1)).
Proof.
  rewrite (proj1 (proj2 (addBoundaryROI_always_binds emptyMeshLogic
                           (mkROINode vzero vzero))) emptyMesh eq_refl).
  reflexivity.
Defined.

(** * Further properties of the code *)

(** ** The cell array *)

(** One turn of the loop on a cell stored after its size. *)
Lemma parseCells_cell (pre c rest : list nat) (fuel : nat) (acc : list (list nat)) :
  parseCells (pre ++ (List.length c :: c) ++ rest) (S fuel) (List.length pre) acc
  = parseCells ((pre ++ List.length c :: c) ++ rest) fuel
      (List.length (pre ++ List.length c :: c)) (acc ++ [c]).
Proof.
  cbn [parseCells].
  rewrite nth_error_app2 by lia. rewrite Nat.sub_diag. cbn [nth_error app].
  assert (Hskip : skipn (List.length pre + 1) (pre ++ List.length c :: c ++ rest)
                  = c ++ rest).
  { replace (List.length pre + 1)%nat with (List.length (pre ++ [List.length c]))
      by (rewrite length_app; reflexivity).
    replace (pre ++ List.length c :: c ++ rest)
      with ((pre ++ [List.length c]) ++ (c ++ rest))
      by (rewrite <- !app_assoc; reflexivity).
    now rewrite skipn_app, skipn_all, Nat.sub_diag. }
  rewrite Hskip, firstn_app, firstn_all, Nat.sub_diag. cbn [firstn].
  rewrite app_nil_r.
  replace (List.length pre + (List.length c + 1))%nat
    with (List.length (pre ++ List.length c :: c))
    by (rewrite length_app; cbn; lia).
  now rewrite <- !app_assoc.
Qed.

Lemma parseCells_encoded (cells : list (list nat)) (pre post : list nat)
  (acc : list (list nat)) :
  parseCells (pre ++ encodeCells cells ++ post) (List.length cells)
    (List.length pre) acc
  = Ok (acc ++ cells).
Proof.
  revert pre acc. induction cells as [|c cells IH]; intros pre acc.
  - cbn. now rewrite app_nil_r.
  - cbn [List.length encodeCells flat_map]. fold (encodeCells cells).
    rewrite <- app_assoc.
    rewrite (parseCells_cell pre c (encodeCells cells ++ post)).
    rewrite IH. now rewrite <- app_assoc.
Qed.

(** X1: the loop of [modelNodetoSofaNode] decodes VTK's flat cell array: on a
    grid whose array holds the cells [cells], each after its size, followed
    by anything, the transform writes exactly [cells] as the tetrahedra and
    the points of the grid as the positions. *)
Theorem modelNodetoSofaNode_decodes (self : ParameterNode) (sofaNode : SofaNode)
  (model : ModelNode) (grid : Mesh) (cells : list (list nat)) (trailing : list nat) :
  modelNode self = Some model ->
  GetUnstructuredGrid model = Some grid ->
  numberOfCells grid = List.length cells ->
  cellData grid = encodeCells cells ++ trailing ->
  exists n,
    modelNodetoSofaNode self sofaNode = Ok n /\
    tetrahedra n = Some cells /\
    position n = Some (meshPoints grid).
Proof.
  intros Hm Hg Hn Hd. unfold modelNodetoSofaNode. rewrite Hm, Hg, Hn, Hd.
  pose proof (parseCells_encoded cells [] trailing []) as H.
  cbn [app List.length] in H. rewrite H. cbn [bind].
  eexists. repeat split.
Qed.

Lemma parseCells_length (cellArray : list nat) (fuel idx : nat)
  (acc out : list (list nat)) :
  parseCells cellArray fuel idx acc = Ok out ->
  List.length out = (List.length acc + fuel)%nat.
Proof.
  revert idx acc. induction fuel as [|fuel IH]; intros idx acc; cbn [parseCells].
  - intros [= <-]. lia.
  - destruct (nth_error cellArray idx) as [k|]; [|discriminate].
    intros H. apply IH in H. rewrite length_app in H. cbn in H. lia.
Qed.

(** X2: on a model whose unstructured grid has points, an upload that
    succeeds has written one entry per cell that the grid announces as the
    tetrahedra and the points of the grid as the positions, each once, the
    tetrahedra first; the other fields of the graph are as they were. *)
Theorem modelNodetoSofaNode_writes (self : ParameterNode) (sofaNode n : SofaNode)
  (model : ModelNode) (grid : Mesh) :
  modelNode self = Some model ->
  GetUnstructuredGrid model = Some grid ->
  meshPoints grid <> [] ->
  modelNodetoSofaNode self sofaNode = Ok n ->
  exists cells,
    tetrahedra n = Some cells /\
    List.length cells = numberOfCells grid /\
    position n = Some (meshPoints grid) /\
    gravity n = gravity sofaNode /\ box n = box sofaNode /\
    mousePosition n = mousePosition sofaNode /\
    dofsPosition n = dofsPosition sofaNode /\
    journal n = ContainerPosition :: ContainerTetrahedra :: journal sofaNode.
Proof.
  intros Hm Hg _. unfold modelNodetoSofaNode. rewrite Hm, Hg.
  destruct (parseCells (cellData grid) (numberOfCells grid) 0 []) as [cells|e] eqn:E;
    cbn [bind]; [|discriminate].
  intros [= <-].
  exists cells. apply parseCells_length in E. cbn in E.
  repeat split. exact E.
Qed.

(** ** A model that is a surface *)

(** X4: the two transforms of the model mapping read the unstructured grid
    only: on a model without one they raise [AttributeError], surface or
    not, while [addBoundaryROI] takes the surface of the same model and
    builds the region from its bounds. *)
Theorem surface_model (self : Logic) (sofaNode : SofaNode) (model : ModelNode)
  (roiNode : ROINode) :
  modelNode (parameterNode self) = Some model ->
  GetUnstructuredGrid model = None ->
  modelNodetoSofaNode (parameterNode self) sofaNode = Raise AttributeError /\
  sofaNodeToModelNode (parameterNode self) sofaNode = Raise AttributeError /\
  forall surface,
    GetPolyData model = Some surface ->
    let b := GetBounds surface in
    boundaryROI (parameterNode (addBoundaryROI self roiNode)) =
    Some (mkROINode
            (mkVec3 ((b0 b + b1 b) / 2) ((b2 b + b3 b) / 2) ((b4 b + b5 b) / 2))
            (mkVec3 (abs (b1 b - b0 b) / 2) (abs (b3 b - b2 b) / 2)
                    (abs (b5 b - b4 b) / 2))).
Proof.
  intros Hm Hg. unfold modelNodetoSofaNode, sofaNodeToModelNode, addBoundaryROI,
    meshOfModel.
  rewrite Hm, Hg. repeat split. intros surface ->. reflexivity.
Qed.

(** ** The read-back *)

(** X5: the read-back replaces the points of the grid and nothing else: the
    grid gets one point per degree of freedom, its cells, the surface and
    the other entities stay, and the model's modification count moves by
    one; an upload after the read-back writes the tetrahedra that an upload
    before it writes. *)
Theorem sofaNodeToModelNode_keeps_topology (self self' : ParameterNode)
  (sofaNode : SofaNode) :
  sofaNodeToModelNode self sofaNode = Ok self' ->
  exists model grid,
    modelNode self = Some model /\ GetUnstructuredGrid model = Some grid /\
    modelNode self' =
    Some {| unstructuredGrid :=
              Some (mkMesh (numpy_to_vtk (dofsPosition sofaNode))
                      (numberOfCells grid) (cellData grid));
            polyData := polyData model;
            modelMTime := S (modelMTime model) |} /\
    List.length (numpy_to_vtk (dofsPosition sofaNode))
    = List.length (dofsPosition sofaNode) /\
    set_modelNode self' (modelNode self) = self /\
    forall n : SofaNode,
      match modelNodetoSofaNode self n, modelNodetoSofaNode self' n with
      | Ok a, Ok b => tetrahedra a = tetrahedra b
      | Raise e, Raise e' => e = e'
      | _, _ => False
      end.
Proof.
  unfold sofaNodeToModelNode.
  destruct (modelNode self) as [model|] eqn:Hm; [|discriminate].
  destruct (GetUnstructuredGrid model) as [grid|] eqn:Hg; [|discriminate].
  intros [= <-]. exists model, grid.
  split; [reflexivity|]. split; [exact Hg|]. split; [reflexivity|].
  split; [apply length_map|]. split.
  - destruct self; cbn in *. now subst.
  - intros n. unfold modelNodetoSofaNode. rewrite Hm. cbn. rewrite Hg. cbn.
    destruct (parseCells (cellData grid) (numberOfCells grid) 0 []); reflexivity.
Qed.

(** ** The order of the mappings *)

Lemma engineTransforms_plan (i : nat)
  (t : ParameterNode -> SofaNode -> Exc SofaNode) (self : ParameterNode) :
  nth_error engineTransforms i = Some t ->
  exists r, writesPlan t self r /\
            forall w, r = Ok w -> slot w = None \/ slot w = Some i.
Proof.
  destruct i as [|[|[|[|i]]]]; cbn; intros H; try (injection H as H; subst t).
  - unfold writesPlan, modelNodetoSofaNode.
    destruct (modelNode self) as [model|].
    + destruct (GetUnstructuredGrid model) as [grid|].
      * destruct (parseCells (cellData grid) (numberOfCells grid) 0 []) as [c|e].
        -- exists (Ok (WTopology c (meshPoints grid))).
           split; [reflexivity|]. intros w [= <-]. now right.
        -- exists (Raise e). split; [reflexivity|discriminate].
      * exists (Raise AttributeError). split; [reflexivity|discriminate].
    + exists (Ok WNone). split; [reflexivity|]. intros w [= <-]. now left.
  - unfold writesPlan, markupsFiducialNodeToSofaPoint.
    destruct (movingPointNode self) as [f|].
    + destruct (GetNthControlPointPosition f 0) as [p|e].
      * exists (Ok (WMouse [list_mul (to_list p) 3])).
        split; [reflexivity|]. intros w [= <-]. now right.
      * exists (Raise e). split; [reflexivity|discriminate].
    + exists (Ok WNone). split; [reflexivity|]. intros w [= <-]. now left.
  - unfold writesPlan, markupsROIToSofaROI.
    destruct (boundaryROI self) as [roi|].
    + exists (Ok (WBox [arrayFromMarkupsROIPoints roi])).
      split; [reflexivity|]. intros w [= <-]. now right.
    + exists (Ok WNone). split; [reflexivity|]. intros w [= <-]. now left.
  - unfold writesPlan, markupsLineToGravityVector.
    destruct (gravityVector self) as [line|].
    + destruct (arrayVectorFromMarkupsLinePoints line) as [v|e].
      * destruct (float_of_int (gravityMagnitude self)) as [k|e].
        -- exists (Ok (WGravity (array_mul (overNorm v) k))).
           split; [|intros w [= <-]; now right].
           intros n. cbn [bind]. now rewrite guarded_division.
        -- exists (Raise e). split; [|discriminate].
           intros n. cbn [bind]. now rewrite guarded_division.
      * exists (Raise e). split; [reflexivity|discriminate].
    + exists (Ok WNone). split; [reflexivity|]. intros w [= <-]. now left.
  - destruct i; discriminate.
Qed.

Lemma fieldsOf_eq (n m : SofaNode) :
  fieldsOf n = fieldsOf m <->
  gravity n = gravity m /\ tetrahedra n = tetrahedra m /\
  position n = position m /\ box n = box m /\
  mousePosition n = mousePosition m /\ dofsPosition n = dofsPosition m.
Proof.
  unfold fieldsOf. split.
  - intros [= -> -> -> -> -> ->]. now repeat split.
  - intros (-> & -> & -> & -> & -> & ->). reflexivity.
Qed.

Lemma applyWrite_fields (w : Write) (n m : SofaNode) :
  fieldsOf n = fieldsOf m -> fieldsOf (applyWrite w n) = fieldsOf (applyWrite w m).
Proof.
  rewrite !fieldsOf_eq. intros (H1 & H2 & H3 & H4 & H5 & H6).
  destruct w; cbn; repeat split; assumption.
Qed.

Lemma applyWrite_swap (w1 w2 : Write) (n m : SofaNode) :
  slot w1 = None \/ slot w2 = None \/ slot w1 <> slot w2 ->
  fieldsOf n = fieldsOf m ->
  fieldsOf (applyWrite w2 (applyWrite w1 n))
  = fieldsOf (applyWrite w1 (applyWrite w2 m)).
Proof.
  rewrite !fieldsOf_eq. intros Hs (H1 & H2 & H3 & H4 & H5 & H6).
  destruct w1, w2; cbn in *; repeat split; try assumption;
    destruct Hs as [Hs|[Hs|Hs]]; try discriminate; now elim Hs.
Qed.

Lemma sameOutcome_plan (t : ParameterNode -> SofaNode -> Exc SofaNode)
  (self : ParameterNode) (r : Exc Write) (n m : SofaNode) :
  writesPlan t self r -> fieldsOf n = fieldsOf m ->
  sameOutcome (t self n) (t self m).
Proof.
  intros Hp Hf. rewrite (Hp n), (Hp m).
  destruct r as [w|e]; cbn; [now apply applyWrite_fields|exact I].
Qed.

Lemma applyAll_fields (ts : list (ParameterNode -> SofaNode -> Exc SofaNode))
  (self : ParameterNode) (n m : SofaNode) :
  Forall (fun t => In t engineTransforms) ts ->
  fieldsOf n = fieldsOf m ->
  sameOutcome (applyAll ts self n) (applyAll ts self m).
Proof.
  intros Hts. revert n m. induction Hts as [|t ts Ht _ IH]; intros n m Hf.
  - exact Hf.
  - cbn [applyAll]. apply In_nth_error in Ht as [i Hi].
    destruct (engineTransforms_plan i t self Hi) as (r & Hp & _).
    rewrite (Hp n), (Hp m). destruct r as [w|e]; cbn [bind]; [|exact I].
    apply IH. now apply applyWrite_fields.
Qed.

Lemma sameOutcome_trans (a b c : Exc SofaNode) :
  sameOutcome a b -> sameOutcome b c -> sameOutcome a c.
Proof.
  destruct a, b, c; cbn; try tauto; congruence.
Qed.

Lemma applyAll_permutation (ts ts' : list (ParameterNode -> SofaNode -> Exc SofaNode))
  (self : ParameterNode) :
  Permutation ts ts' ->
  Forall (fun t => In t engineTransforms) ts ->
  forall n m, fieldsOf n = fieldsOf m ->
    sameOutcome (applyAll ts self n) (applyAll ts' self m).
Proof.
  induction 1 as [|t l l' Hperm IH|t1 t2 l|l1 l2 l3 H12 IH12 H23 IH23];
    intros Hall n m Hf.
  - exact Hf.
  - inversion Hall as [|? ? Ht Hl]; subst. cbn [applyAll].
    apply In_nth_error in Ht as [i Hi].
    destruct (engineTransforms_plan i t self Hi) as (r & Hp & _).
    rewrite (Hp n), (Hp m). destruct r as [w|e]; cbn [bind]; [|exact I].
    apply IH; [assumption|now apply applyWrite_fields].
  - inversion Hall as [|? ? Ht2 Hl']; subst.
    inversion Hl' as [|? ? Ht1 Hl]; subst. cbn [applyAll].
    apply In_nth_error in Ht1 as [i Hi]. apply In_nth_error in Ht2 as [j Hj].
    destruct (engineTransforms_plan i t1 self Hi) as (r1 & Hp1 & Hs1).
    destruct (engineTransforms_plan j t2 self Hj) as (r2 & Hp2 & Hs2).
    rewrite (Hp2 n), (Hp1 m).
    destruct r1 as [w1|e1], r2 as [w2|e2]; cbn [bind];
      rewrite ?Hp1, ?Hp2; cbn [bind]; try exact I.
    apply applyAll_fields; [assumption|].
    destruct (Nat.eq_dec i j) as [->|Hij].
    + assert (t1 = t2) by congruence. subst t2.
      assert (A : forall k, applyWrite w2 k = applyWrite w1 k).
      { intros k. pose proof (Hp1 k) as P1. pose proof (Hp2 k) as P2.
        cbn in P1, P2. congruence. }
      rewrite !A. now apply applyWrite_fields, applyWrite_fields.
    + apply applyWrite_swap; [|exact Hf].
      destruct (Hs1 w1 eq_refl) as [E1|E1]; [now right; left|].
      destruct (Hs2 w2 eq_refl) as [E2|E2]; [now left|].
      right; right. rewrite E1, E2. intros [= E]. now apply Hij.
  - apply sameOutcome_trans with (applyAll l2 self n).
    + apply IH12; [assumption|reflexivity].
    + apply IH23; [|assumption].
      eapply Permutation_Forall; eassumption.
Qed.

(** X6: the values that a pass over the four transforms to the engine leaves
    in the graph do not depend on the order of the transforms: run in any
    order, the pass fails or succeeds as in the order of declaration, and
    when it succeeds every field of the graph has the same value. *)
Theorem engineTransforms_any_order
  (ts : list (ParameterNode -> SofaNode -> Exc SofaNode))
  (self : ParameterNode) (sofaNode : SofaNode) :
  Permutation engineTransforms ts ->
  sameOutcome (applyAll engineTransforms self sofaNode) (applyAll ts self sofaNode).
Proof.
  intros H. apply applyAll_permutation; [exact H| |reflexivity].
  apply Forall_forall. auto.
Qed.

(** ** The model changed in the scene *)

(** X7: [onModelNodeModified] copies the points of the caller's surface to
    the mesh that the geometry helpers use, the grid if there is one, else
    the surface, and keeps the cells of that mesh; on a model without a mesh
    it does nothing, and it does not even read the caller.  It raises
    [AttributeError] when no model is set, and when the model has a mesh but
    the caller has no surface. *)
Theorem onModelNodeModified_outcomes (self : Logic) (caller : ModelNode) :
  match onModelNodeModified self caller with
  | Ok self' =>
      exists model,
        modelNode (parameterNode self) = Some model /\
        match meshOfModel (Some model) with
        | None => self' = self
        | Some mesh =>
            exists surface,
              GetPolyData caller = Some surface /\
              meshOfModel (modelNode (parameterNode self'))
              = Some (mkMesh (meshPoints surface) (numberOfCells mesh)
                        (cellData mesh)) /\
              (GetUnstructuredGrid model <> None ->
                 forall model', modelNode (parameterNode self') = Some model' ->
                   GetPolyData model' = GetPolyData model)
        end
  | Raise e =>
      e = AttributeError /\
      (modelNode (parameterNode self) = None \/
       (meshOfModel (modelNode (parameterNode self)) <> None /\
        GetPolyData caller = None))
  end.
Proof.
  unfold onModelNodeModified, meshOfModel.
  destruct (modelNode (parameterNode self)) as [model|] eqn:Hm;
    [|split; [reflexivity|now left]].
  destruct (GetUnstructuredGrid model) as [grid|] eqn:Hg.
  - destruct (GetPolyData caller) as [surface|] eqn:Hc.
    + exists model. split; [reflexivity|]. rewrite Hg. exists surface.
      split; [reflexivity|]. cbn. split; [reflexivity|].
      intros _ model' [= <-]. reflexivity.
    + split; [reflexivity|]. right. split; [discriminate|reflexivity].
  - destruct (GetPolyData model) as [poly|] eqn:Hp.
    + destruct (GetPolyData caller) as [surface|] eqn:Hc.
      * exists model. split; [reflexivity|]. rewrite Hg, Hp. exists surface.
        split; [reflexivity|]. cbn. split; [reflexivity|]. intros H. now elim H.
      * split; [reflexivity|]. right. split; [discriminate|reflexivity].
    + exists model. split; [reflexivity|]. now rewrite Hg, Hp.
Qed.

(** ** The region and the moving point *)

Lemma binary_round_aux_not_negative (m e : Z) (l : location) :
  SFltb (binary_round_aux prec emax false m e l) (S754_zero false) = false.
Proof.
  unfold binary_round_aux.
  destruct (shr_fexp prec emax m e l) as [mrs' e'].
  destruct (shr_fexp prec emax _ e' loc_Exact) as [mrs'' e''].
  destruct (shr_m mrs'') as [|p|p]; [reflexivity| |reflexivity].
  destruct (e'' <=? emax - prec)%Z; reflexivity.
Qed.

(** [abs(x) / 2.0] is never below zero. *)
Lemma half_abs_not_negative (x : float) : (abs x / 2 <? 0) = false.
Proof.
  rewrite ltb_spec, div_spec, abs_spec.
  change (Prim2SF 0) with (S754_zero false).
  change (Prim2SF 2) with (S754_finite false 4503599627370496 (-51)).
  destruct (Prim2SF x) as [s|s| |s m e]; try reflexivity.
  unfold SFabs, SF64div, SFdiv.
  destruct (SFdiv_core_binary prec emax (Z.pos m) e (Z.pos 4503599627370496) (-51))
    as [[mz ez] lz].
  apply binary_round_aux_not_negative.
Qed.

(** X8: whatever the bounds of the mesh are, the region that
    [addBoundaryROI] binds from a mesh has no negative half-extent, and a
    second call replaces the region of the first: the region depends on the
    mesh and on the new node only. *)
Theorem addBoundaryROI_half_extents (self : Logic) (roiNode : ROINode) (mesh : Mesh) :
  meshOfModel (modelNode (parameterNode self)) = Some mesh ->
  exists roi,
    boundaryROI (parameterNode (addBoundaryROI self roiNode)) = Some roi /\
    (vx (roiRadius roi) <? 0) = false /\
    (vy (roiRadius roi) <? 0) = false /\
    (vz (roiRadius roi) <? 0) = false /\
    forall earlier : ROINode,
      addBoundaryROI (addBoundaryROI self earlier) roiNode
      = addBoundaryROI self roiNode.
Proof.
  intros Hm. unfold addBoundaryROI at 1. rewrite Hm.
  eexists. split; [reflexivity|]. cbn [roiRadius SetRadiusXYZ SetXYZ vx vy vz].
  rewrite !half_abs_not_negative. repeat split.
Qed.

Lemma closestPointOf_vertex (FindClosestPoint : Locator) (mesh : Mesh)
  (x : Vec3) (i : nat) (p : Vec3) :
  closestPointOf FindClosestPoint mesh x = Ok (i, p) ->
  nth_error (meshPoints mesh) i = Some p.
Proof.
  unfold closestPointOf, GetPoint.
  destruct (FindClosestPoint mesh x) as [k|]; cbn [bind]; [|discriminate].
  destruct (nth_error (meshPoints mesh) k) as [q|] eqn:E; cbn [bind];
    [|discriminate].
  now intros [= <- <-].
Qed.

(** X9: [addMovingPoint] asks the scene for the camera first: when the scene
    has none, the exception of [getNode] leaves the method, with a model or
    without, and nothing is bound.  With the camera found, it does nothing
    when the model is missing; on a model without a mesh it raises
    [AttributeError]; and when it succeeds, the fiducial it binds is the new
    node, named, with one more control point, which is a point of the
    model's mesh; nothing else of the logic object changes. *)
Theorem addMovingPoint_outcomes (FindClosestPoint : Locator) (self : Logic)
  (fiducialNode : MarkupsNode) :
  (forall e : Error,
     addMovingPoint FindClosestPoint self (Raise e) fiducialNode = Raise e) /\
  (forall camera : CameraNode,
     modelNode (parameterNode self) = None ->
     addMovingPoint FindClosestPoint self (Ok (Some camera)) fiducialNode
     = Ok self) /\
  (forall (model : ModelNode) (camera : CameraNode),
     modelNode (parameterNode self) = Some model ->
     (meshOfModel (Some model) = None ->
      addMovingPoint FindClosestPoint self (Ok (Some camera)) fiducialNode
      = Raise AttributeError) /\
     (forall self',
        addMovingPoint FindClosestPoint self (Ok (Some camera)) fiducialNode
        = Ok self' ->
        exists mesh p,
          meshOfModel (Some model) = Some mesh /\
          In p (meshPoints mesh) /\
          movingPointNode (parameterNode self') =
          Some (mkMarkupsNode "Closest Fiducial"
                  (controlPoints fiducialNode ++ [p])) /\
          self' = set_parameterNode self
                    (set_movingPointNode (parameterNode self)
                       (movingPointNode (parameterNode self'))))).
Proof.
  split; [|split].
  - reflexivity.
  - intros camera H. unfold addMovingPoint. cbn [bind]. now rewrite H.
  - intros model camera Hm.
    unfold addMovingPoint, addFiducialToClosestPoint. cbn [bind].
    rewrite Hm. split.
    + intros ->. reflexivity.
    + intros self'. destruct (meshOfModel (Some model)) as [mesh|]; [|discriminate].
      destruct (closestPointOf FindClosestPoint mesh (cameraPosition camera))
        as [[i p]|e] eqn:E; cbn [bind snd]; [|discriminate].
      intros [= <-]. exists mesh, p. split; [reflexivity|].
      split; [exact (nth_error_In _ _ (closestPointOf_vertex _ _ _ _ _ E))|].
      split; reflexivity.
Qed.

(** X10: [addFiducialToClosestPoint] looks at the model of the parameter
    node, not at the model it is given: with no model in the parameter node
    it raises [AttributeError] whatever model is passed, and with one it
    returns the same fiducial for every model passed. *)
Theorem addFiducialToClosestPoint_ignores_argument (FindClosestPoint : Locator)
  (self : Logic) (passed other : ModelNode) (cameraNode : CameraNode)
  (fiducialNode : MarkupsNode) :
  (modelNode (parameterNode self) = None ->
   addFiducialToClosestPoint FindClosestPoint self passed cameraNode fiducialNode
   = Raise AttributeError) /\
  addFiducialToClosestPoint FindClosestPoint self passed cameraNode fiducialNode
  = addFiducialToClosestPoint FindClosestPoint self other cameraNode fiducialNode.
Proof.
  split; [|reflexivity].
  unfold addFiducialToClosestPoint. now intros ->.
Qed.

(** X11: the moving point that [addMovingPoint] binds from a new, empty
    fiducial node is what the next transform to the engine uploads: the
    point of the mesh found for the camera position, three times in a
    row. *)
Theorem addMovingPoint_then_upload (FindClosestPoint : Locator)
  (self self' : Logic) (model : ModelNode)
  (camera : CameraNode) (fiducialNode : MarkupsNode) (sofaNode : SofaNode) :
  modelNode (parameterNode self) = Some model ->
  controlPoints fiducialNode = [] ->
  addMovingPoint FindClosestPoint self (Ok (Some camera)) fiducialNode
  = Ok self' ->
  exists mesh i p,
    meshOfModel (Some model) = Some mesh /\
    closestPointOf FindClosestPoint mesh (cameraPosition camera) = Ok (i, p) /\
    markupsFiducialNodeToSofaPoint (parameterNode self') sofaNode =
    Ok (set_mousePosition sofaNode
          [[vx p; vy p; vz p; vx p; vy p; vz p; vx p; vy p; vz p]]).
Proof.
  intros Hm Hf. unfold addMovingPoint, addFiducialToClosestPoint. cbn [bind].
  rewrite Hm.
  destruct (meshOfModel (Some model)) as [mesh|]; [|discriminate].
  destruct (closestPointOf FindClosestPoint mesh (cameraPosition camera))
    as [[i p]|e] eqn:E; cbn [bind snd]; [|discriminate].
  intros [= <-]. exists mesh, i, p. split; [reflexivity|]. split; [exact E|].
  unfold markupsFiducialNodeToSofaPoint, GetNthControlPointPosition. cbn.
  rewrite Hf. reflexivity.
Qed.

(** ** After a reset *)

(** X12: [resetParameterNode] is idempotent, and after it a pass over the
    four transforms to the engine writes nothing to any graph, the read-back
    raises [AttributeError], and [addMovingPoint] does nothing. *)
Theorem after_reset (FindClosestPoint : Locator) (self : Logic)
  (sofaNode : SofaNode) (cameraNode : option CameraNode)
  (fiducialNode : MarkupsNode) :
  let reset := resetParameterNode self in
  resetParameterNode reset = reset /\
  applyAll engineTransforms (parameterNode reset) sofaNode = Ok sofaNode /\
  sofaNodeToModelNode (parameterNode reset) sofaNode = Raise AttributeError /\
  addMovingPoint FindClosestPoint reset (Ok cameraNode) fiducialNode = Ok reset.
Proof.
  cbn zeta. repeat split.
Qed.

(** ** The gravity line *)

(** X13: [addGravityVector] binds whatever the scene's [AddNode] returns,
    a line named Gravity.  Without a mesh the line gets no control point;
    with a mesh it gets exactly two, which differ in [y] only: they lie at
    the lower and the upper [y] bound of the mesh, on the vertical through
    the centre of the bounds.  Nothing else of the logic object changes. *)
Theorem addGravityVector_line (self : Logic) (lineNode : MarkupsNode)
  (AddNode : MarkupsNode -> option MarkupsNode) :
  let after := addGravityVector self lineNode AddNode in
  (meshOfModel (modelNode (parameterNode self)) = None ->
   gravityVector (parameterNode after)
   = AddNode (mkMarkupsNode "Gravity" (controlPoints lineNode))) /\
  (forall mesh,
     meshOfModel (modelNode (parameterNode self)) = Some mesh ->
     exists startPoint endPoint,
       gravityVector (parameterNode after)
       = AddNode (mkMarkupsNode "Gravity"
                    (controlPoints lineNode ++ [startPoint; endPoint])) /\
       vx startPoint = vx endPoint /\ vz startPoint = vz endPoint /\
       vy startPoint = b2 (GetBounds mesh) /\
       vy endPoint = b3 (GetBounds mesh)) /\
  after = set_parameterNode self
            (set_gravityVector (parameterNode self)
               (gravityVector (parameterNode after))).
Proof.
  cbn zeta. unfold addGravityVector. split; [|split].
  - intros ->. reflexivity.
  - intros mesh ->. do 2 eexists. split.
    + unfold AddControlPointWorld, SetName. cbn [controlPoints markupsName].
      rewrite <- app_assoc. reflexivity.
    + now repeat split.
  - reflexivity.
Qed.

(** ** The sign of the results of binary64 operations *)

Lemma shr_1_nonneg (mrs : shr_record) :
  (0 <= shr_m mrs)%Z -> (0 <= shr_m (shr_1 mrs))%Z.
Proof.
  destruct mrs as [m r s]. cbn [shr_m]. intros H.
  destruct m as [|[p|p|]|[p|p|]]; cbn; lia.
Qed.

Lemma iter_shr_1_nonneg (p : positive) (mrs : shr_record) :
  (0 <= shr_m mrs)%Z -> (0 <= shr_m (iter_pos shr_1 p mrs))%Z.
Proof.
  revert mrs. induction p as [p IH|p IH|]; intros mrs H; cbn [iter_pos].
  - apply IH, IH, shr_1_nonneg, H.
  - apply IH, IH, H.
  - apply shr_1_nonneg, H.
Qed.

Lemma shr_fexp_nonneg (m e : Z) (l : location) :
  (0 <= m)%Z -> (0 <= shr_m (fst (shr_fexp prec emax m e l)))%Z.
Proof.
  intros H. unfold shr_fexp, shr.
  assert (H0 : (0 <= shr_m (shr_record_of_loc m l))%Z)
    by (destruct l as [|[]]; exact H).
  destruct (fexp prec emax (Zdigits2 m + e) - e)%Z; cbn [fst]; try exact H0.
  now apply iter_shr_1_nonneg.
Qed.

Lemma round_nearest_even_nonneg (m : Z) (l : location) :
  (0 <= m)%Z -> (0 <= round_nearest_even m l)%Z.
Proof.
  intros H. destruct l as [|[]]; cbn; try destruct (Z.even m); lia.
Qed.

Lemma binary_round_aux_signed (s : bool) (m e : Z) (l : location) :
  (0 <= m)%Z -> signedSF s (binary_round_aux prec emax s m e l).
Proof.
  intros H. unfold binary_round_aux.
  pose proof (shr_fexp_nonneg m e l H) as H1.
  destruct (shr_fexp prec emax m e l) as [mrs' e']. cbn [fst] in H1.
  pose proof (shr_fexp_nonneg _ e' loc_Exact
                (round_nearest_even_nonneg _ (loc_of_shr_record mrs') H1)) as H2.
  destruct (shr_fexp prec emax _ e' loc_Exact) as [mrs'' e'']. cbn [fst] in H2.
  destruct (shr_m mrs'') as [|p|p]; [reflexivity| |lia].
  destruct (e'' <=? emax - prec)%Z; reflexivity.
Qed.

Lemma SFmul_self_nonneg (d : spec_float) :
  notNaN d -> signedSF false (SF64mul d d).
Proof.
  destruct d as [s|s| |s m e]; cbn; try tauto; intros _.
  - now destruct s.
  - now destruct s.
  - replace (xorb s s) with false by now destruct s.
    now apply binary_round_aux_signed.
Qed.

Lemma SFadd_zero_l (y : spec_float) :
  signedSF false y -> SF64add (S754_zero false) y = y.
Proof.
  destruct y as [s|s| |s m e]; cbn; try tauto; now intros ->.
Qed.

Lemma SFadd_zero_r (y : spec_float) :
  signedSF false y -> SF64add y (S754_zero false) = y.
Proof.
  destruct y as [s|s| |s m e]; cbn; try tauto; now intros ->.
Qed.

Lemma SFsqrt_nonneg (y : spec_float) :
  signedSF false y -> signedSF false (SF64sqrt y).
Proof.
  destruct y as [s|s| |s m e]; cbn; try tauto; intros ->; try reflexivity.
  unfold SFsqrt_core_binary.
  set (m' := match _ with Z0 => _ | Zpos _ => _ | Zneg _ => _ end).
  pose proof (Z.sqrtrem_sqrt m') as Hq. pose proof (Z.sqrt_nonneg m') as Hn.
  destruct (Z.sqrtrem m') as [q r]. cbn [fst] in Hq. subst q.
  now apply binary_round_aux_signed.
Qed.

Lemma SFsub_finite (a b : spec_float) :
  finiteSF a -> finiteSF b -> notNaN (SF64sub a b).
Proof.
  destruct a as [sa|sa| |sa ma ea], b as [sb|sb| |sb mb eb]; cbn; try tauto;
    intros _ _.
  - now destruct sa, sb.
  - unfold binary_normalize.
    destruct (_ - _)%Z as [|p|p]; [exact I| |]; unfold binary_round;
      destruct (shl_align _ _ _) as [mz ez];
      match goal with
      | |- notNaN (binary_round_aux _ _ ?s (Z.pos ?m) ?e ?l) =>
          pose proof (binary_round_aux_signed s (Z.pos m) e l ltac:(lia)) as H;
          destruct (binary_round_aux prec emax s (Z.pos m) e l); cbn in *; tauto
      end.
Qed.

Lemma SFdiv_zero_l (y : spec_float) :
  signedSF false y -> SFeqb y (S754_zero false) = false ->
  SF64div (S754_zero false) y = S754_zero false.
Proof.
  destruct y as [s|s| |s m e]; cbn; try tauto; intros ->; try reflexivity.
  discriminate.
Qed.

Lemma is_finite_finiteSF (x : float) : is_finite x = true -> finiteSF (Prim2SF x).
Proof.
  intros H. destruct (is_finite_SF x H) as [[s E]|(s & m & e & E)]; now rewrite E.
Qed.

(** The norm of a vector along [y] is not NaN and not negative. *)
Lemma norm_vertical (d : float) :
  notNaN (Prim2SF d) -> signedSF false (Prim2SF (linalg_norm (mkVec3 0 d 0))).
Proof.
  intros H. unfold linalg_norm. cbn [vx vy vz].
  rewrite sqrt_spec, !add_spec, !mul_spec.
  change (Prim2SF 0) with (S754_zero false).
  change (SF64mul (S754_zero false) (S754_zero false)) with (S754_zero false).
  pose proof (SFmul_self_nonneg _ H) as Hd.
  rewrite (SFadd_zero_l _ Hd), (SFadd_zero_r _ Hd).
  now apply SFsqrt_nonneg.
Qed.

Lemma zero_div (k : float) :
  signedSF false (Prim2SF k) -> (k =? 0) = false -> 0 / k = 0.
Proof.
  rewrite eqb_spec. change (Prim2SF 0) with (S754_zero false). intros Hs He.
  apply Prim2SF_inj. rewrite div_spec.
  change (Prim2SF 0) with (S754_zero false). now apply SFdiv_zero_l.
Qed.

Lemma overNorm_vertical (d : float) :
  notNaN (Prim2SF d) ->
  vx (overNorm (mkVec3 0 d 0)) = 0 /\ vz (overNorm (mkVec3 0 d 0)) = 0.
Proof.
  intros H. unfold overNorm.
  destruct (linalg_norm (mkVec3 0 d 0) =? 0) eqn:E; [now split|].
  cbn [vx vy vz]. now rewrite (zero_div _ (norm_vertical d H) E).
Qed.

(** X14: the gravity line that [addGravityVector] makes for a mesh gives a
    gravity along [y]: when the line is uploaded by
    [markupsLineToGravityVector], the gravity of the graph is written, and
    its [x] and [z] components are zero, for finite bounds and a magnitude
    that converts to a double. *)
Theorem default_gravity_is_vertical (self : Logic) (lineNode : MarkupsNode)
  (sofaNode : SofaNode) (mesh : Mesh) (k : float) :
  meshOfModel (modelNode (parameterNode self)) = Some mesh ->
  controlPoints lineNode = [] ->
  is_finite ((b0 (GetBounds mesh) + b1 (GetBounds mesh)) / 2) = true ->
  is_finite ((b4 (GetBounds mesh) + b5 (GetBounds mesh)) / 2) = true ->
  is_finite (b2 (GetBounds mesh)) = true ->
  is_finite (b3 (GetBounds mesh)) = true ->
  float_of_int (gravityMagnitude (parameterNode self)) = Ok k ->
  exists n : SofaNode,
    markupsLineToGravityVector
      (parameterNode (addGravityVector self lineNode Some)) sofaNode
    = Ok n /\
    is_zero (vx (gravity n)) = true /\ is_zero (vz (gravity n)) = true /\
    journal n = RootGravity :: journal sofaNode.
Proof.
  intros Hm Hl Hx Hz H2 H3 Hk.
  unfold addGravityVector. rewrite Hm.
  set (b := GetBounds mesh) in *.
  set (s := mkVec3 ((b0 b + b1 b) / 2) (b2 b) ((b4 b + b5 b) / 2)).
  set (e := mkVec3 ((b0 b + b1 b) / 2) (b3 b) ((b4 b + b5 b) / 2)).
  rewrite (markupsLineToGravityVector_bound _ sofaNode
             (mkMarkupsNode "Gravity" [s; e]) s e [] k).
  2:{ cbn. unfold AddControlPointWorld, SetName. cbn. now rewrite Hl. }
  2:{ reflexivity. }
  2:{ exact Hk. }
  subst s e.
  unfold array_sub. cbn [vx vy vz].
  rewrite (sub_diag_finite _ Hx), (sub_diag_finite _ Hz).
  assert (Hd : notNaN (Prim2SF (b3 b - b2 b))).
  { rewrite sub_spec. apply SFsub_finite; now apply is_finite_finiteSF. }
  destruct (overNorm_vertical _ Hd) as [Ex Ez].
  eexists. split; [reflexivity|].
  cbn [gravity set_gravity journal array_mul vx vz].
  rewrite Ex, Ez.
  pose proof (float_of_int_finite _ _ Hk) as Hfin.
  repeat split; now apply mul_zero_l_finite.
Qed.

(** ** The further properties on the one-tetrahedron mesh *)

Lemma modelNodetoSofaNode_decodes_witness :
  exists n,
    modelNodetoSofaNode (parameterNode tetraSession) CreateScene = Ok n /\
    tetrahedra n = Some [[0; 1; 2; 3]%nat] /\
    position n = Some (meshPoints tetraMesh).
Proof.
  apply (modelNodetoSofaNode_decodes (parameterNode tetraSession) CreateScene
           tetraModel tetraMesh [[0; 1; 2; 3]%nat] []); reflexivity.
Defined.

Lemma modelNodetoSofaNode_writes_witness :
  exists n,
    modelNodetoSofaNode (parameterNode tetraSession) loadedScene = Ok n /\
    tetrahedra n = Some [[0; 1; 2; 3]%nat] /\
    gravity n = mkVec3 1 2 3 /\
    journal n = [ContainerPosition; ContainerTetrahedra].
Proof.
  eexists. split; [reflexivity|].
  destruct (modelNodetoSofaNode_writes (parameterNode tetraSession)
              loadedScene _ tetraModel tetraMesh eq_refl eq_refl
              ltac:(discriminate) eq_refl)
    as (cells & Ht & _ & _ & Hg & _ & _ & _ & Hj).
  split; [reflexivity|]. split; [exact Hg|exact Hj].
Defined.

Lemma surface_model_witness :
  modelNodetoSofaNode (parameterNode surfaceLogic) CreateScene
  = Raise AttributeError /\
  boundaryROI (parameterNode (addBoundaryROI surfaceLogic (mkROINode vzero vzero)))
  = Some (mkROINode (mkVec3 1 0 0) (mkVec3 1 0 0)).
Proof.
  destruct (surface_model surfaceLogic CreateScene surfaceModel
              (mkROINode vzero vzero) eq_refl eq_refl) as (H1 & _ & H3).
  split; [exact H1|]. rewrite (H3 threePoints eq_refl). reflexivity.
Defined.

Lemma sofaNodeToModelNode_keeps_topology_witness :
  exists model grid,
    modelNode (parameterNode tetraSession) = Some model /\
    GetUnstructuredGrid model = Some grid /\
    cellData grid = [4; 0; 1; 2; 3]%nat.
Proof.
  destruct (sofaNodeToModelNode_keeps_topology (parameterNode tetraSession) _
              CreateScene eq_refl) as (model & grid & Hm & Hg & _).
  exists model, grid. split; [exact Hm|]. split; [exact Hg|].
  cbn in Hm. injection Hm as <-. cbn in Hg. injection Hg as <-. reflexivity.
Defined.

Lemma engineTransforms_any_order_witness :
  sameOutcome
    (applyAll engineTransforms (parameterNode tetraSession) CreateScene)
    (applyAll (rev engineTransforms) (parameterNode tetraSession) CreateScene).
Proof.
  apply (engineTransforms_any_order (rev engineTransforms)
           (parameterNode tetraSession) CreateScene).
  apply Permutation_rev.
Defined.

Lemma addBoundaryROI_half_extents_witness :
  exists roi,
    boundaryROI
      (parameterNode (addBoundaryROI tetraSession (mkROINode vzero vzero)))
    = Some roi /\
    (vx (roiRadius roi) <? 0) = false.
Proof.
  destruct (addBoundaryROI_half_extents tetraSession (mkROINode vzero vzero)
              tetraMesh eq_refl) as (roi & H & Hx & _).
  exists roi. split; [exact H|exact Hx].
Defined.

Lemma addMovingPoint_then_upload_witness :
  exists self',
    addMovingPoint firstNearest tetraSession (Ok (Some cameraAtX)) emptyFiducial
    = Ok self' /\
    mousePosition
      (match markupsFiducialNodeToSofaPoint (parameterNode self') CreateScene with
       | Ok n => n
       | Raise _ => CreateScene
       end)
    = [[1; 0; 0; 1; 0; 0; 1; 0; 0]].
Proof.
  eexists. split; [reflexivity|].
  destruct (addMovingPoint_then_upload firstNearest tetraSession _ tetraModel
              cameraAtX emptyFiducial CreateScene eq_refl eq_refl eq_refl)
    as (mesh & i & p & Hm & Hc & Hu).
  rewrite Hu. cbn in Hm. injection Hm as <-. cbn in Hc.
  injection Hc as <- <-. reflexivity.
Defined.

Lemma default_gravity_is_vertical_witness :
  is_zero
    (vx (gravity
           (match markupsLineToGravityVector
                    (parameterNode (addGravityVector tetraSession emptyFiducial Some))
                    loadedScene with
            | Ok n => n
            | Raise _ => loadedScene
            end))) = true /\
  is_zero
    (vz (gravity
           (match markupsLineToGravityVector
                    (parameterNode (addGravityVector tetraSession emptyFiducial Some))
                    loadedScene with
            | Ok n => n
            | Raise _ => loadedScene
            end))) = true.
Proof.
  destruct (default_gravity_is_vertical tetraSession emptyFiducial loadedScene
              tetraMesh 10 eq_refl eq_refl eq_refl eq_refl eq_refl eq_refl
              eq_refl) as (n & E & Hx & Hz & _).
  rewrite E. split; [exact Hx|exact Hz].
Defined.

Lemma addMovingPoint_outcomes_witness :
  addMovingPoint firstNearest tetraSession (Raise MRMLNodeNotFoundException)
    emptyFiducial
  = Raise MRMLNodeNotFoundException.
Proof.
  exact (proj1 (addMovingPoint_outcomes firstNearest tetraSession emptyFiducial)
           MRMLNodeNotFoundException).
Defined.
